(** * pydat5 backend: the [/query] controller and the plugin registry

    A shallow embedding of
    - [pydat/api/controller/v1/query.py]   (function [query]),
    - [pydat/core/plugins.py]              (class [PluginBase], [register],
                                            [get_plugins]),
    - [pydat/core/elastic/exceptions.py]   (the two backend exceptions),
    with the properties of the design document stated over it.

    Python exceptions are values of [exn]; a computation that may raise
    returns a [result].  The two process-wide globals [PLUGINS] and
    [USER_PREF] are the two fields of an explicit [registry] state.
    Integers are unbounded, as in Python; the one floating-point
    computation, the division of line 47 of the controller, is modelled
    as the correctly rounded double it is. *)

From Stdlib Require Import ZArith Ascii String List Lia.
From stdpp Require Import base option list strings pretty gmap fin_maps.

Local Open Scope string_scope.
Local Open Scope Z_scope.

(** ** Exceptions and results *)

(** The exception classes that occur in the three modules.  [ClientError]
    and [ServerError] come from [pydat.api.controller.exceptions]; the two
    [ES...] classes are those of [pydat/core/elastic/exceptions.py]. *)
Inductive exn : Type :=
| ClientError (msg : string)
| ServerError (msg : string)
| ValueError (msg : string)
| TypeError (msg : string)
| AttributeError (msg : string)
| NotImplementedError (msg : string)
| OverflowError (msg : string)
| ZeroDivisionError (msg : string)
| ESConnectionError
| ESQueryError.

Inductive result (A : Type) : Type :=
| Ok (a : A)
| Raise (e : exn).
Arguments Ok {A} a.
Arguments Raise {A} e.

Definition bind {A B} (r : result A) (k : A -> result B) : result B :=
  match r with
  | Ok a => k a
  | Raise e => Raise e
  end.

(** [result] is an error monad; stdpp's [x ← c; k] notation is used for it. *)
Global Instance result_ret : MRet result := @Ok.
Global Instance result_bind : MBind result := λ A B k r, bind r k.

(** [try: body except ValueError: raise h] *)
Definition except_ValueError {A} (body : result A) (h : exn) : result A :=
  match body with
  | Raise (ValueError _) => Raise h
  | r => r
  end.

(** [try: body except ESConnectionError: raise h] *)
Definition except_ConnectionError {A} (body : result A) (h : exn) : result A :=
  match body with
  | Raise ESConnectionError => Raise h
  | r => r
  end.

(** ** Python builtins used by the controller *)

Module Py.

(** The values a query-string lookup can hand to the controller: the text
    of the parameter, or whatever default the call site supplies. *)
Inductive value : Type :=
| Str (s : string)
| Int (z : Z)
| Bool (b : bool)
| None_.

Definition type_name (v : value) : string :=
  match v with
  | Str _ => "str"
  | Int _ => "int"
  | Bool _ => "bool"
  | None_ => "NoneType"
  end.

(** *** [str.lower()] on ASCII text *)

Definition lower_ascii (c : ascii) : ascii :=
  let n := nat_of_ascii c in
  if ((65 <=? n) && (n <=? 90))%nat then ascii_of_nat (n + 32) else c.

Fixpoint lower (s : string) : string :=
  match s with
  | EmptyString => EmptyString
  | String c r => String (lower_ascii c) (lower r)
  end.

(** [str(v)] *)
Definition str (v : value) : string :=
  match v with
  | Str s => s
  | Int z => pretty z
  | Bool true => "True"
  | Bool false => "False"
  | None_ => "None"
  end.

(** [v.lower()]: only [str] has the method. *)
Definition lower_method (v : value) : result string :=
  match v with
  | Str s => Ok (lower s)
  | _ => Raise (AttributeError
                  ("'" ++ type_name v ++ "' object has no attribute 'lower'"))
  end.

(** *** [int(s)] on ASCII text

    Leading and trailing white space is dropped, one sign is allowed, and
    the digits may be grouped by single underscores.  Anything else is a
    [ValueError]. *)

Definition is_space (c : ascii) : bool :=
  let n := nat_of_ascii c in
  ((9 <=? n) && (n <=? 13) || (n =? 32))%nat.

Definition digit (c : ascii) : option Z :=
  let n := nat_of_ascii c in
  if ((48 <=? n) && (n <=? 57))%nat then Some (Z.of_nat n - 48) else None.

Fixpoint skip_space (s : string) : string :=
  match s with
  | String c r => if is_space c then skip_space r else s
  | EmptyString => s
  end.

(** [after_digit] tells whether the previous character was a digit: an
    underscore, and the end of the number, are legal only then. *)
Fixpoint digits (acc : Z) (after_digit : bool) (s : string)
  : option (Z * string) :=
  match s with
  | EmptyString => if after_digit then Some (acc, s) else None
  | String c r =>
      match digit c with
      | Some d => digits (10 * acc + d) true r
      | None =>
          if after_digit then
            if Ascii.eqb c "_" then digits acc false r else Some (acc, s)
          else None
      end
  end.

Definition int_of_string (s : string) : option Z :=
  let s := skip_space s in
  let '(neg, s) :=
    match s with
    | String "-" r => (true, r)
    | String "+" r => (false, r)
    | _ => (false, s)
    end in
  match digits 0 false s with
  | Some (n, rest) =>
      match skip_space rest with
      | EmptyString => Some (if neg : bool then - n else n)
      | _ => None
      end
  | None => None
  end.

(** [int(v)] *)
Definition int (v : value) : result Z :=
  match v with
  | Str s =>
      match int_of_string s with
      | Some z => Ok z
      | None => Raise (ValueError
                         ("invalid literal for int() with base 10: " ++ s))
      end
  | Int z => Ok z
  | Bool b => Ok (if b then 1 else 0)
  | None_ => Raise (TypeError "int() argument must be a string or a number")
  end.

(** Whether a text is made of ASCII characters only.  On such a text
    [int_of_string] and [lower] above are what Python computes; a text with
    other characters may hold digits and blanks of other scripts, which
    [int] accepts as well and which are not modelled. *)
Fixpoint is_ascii (s : string) : bool :=
  match s with
  | EmptyString => true
  | String c r => (nat_of_ascii c <? 128)%nat && is_ascii r
  end.

(** The ceiling of the rational [a / b], for [b > 0], in exact arithmetic:
    the number of pages of size [b] that [a] documents fill.  This is the
    yardstick the properties are stated with; what line 47 computes is
    [ceil_truediv] below. *)
Definition ceil_div (a b : Z) : Z := - ((- a) / b).

(** *** [a / b] on integers, and [math.ceil]

    The quotient of two integers is the double nearest to the exact
    quotient, ties going to the even significand; a quotient that rounds
    to [2^1024] or more raises [OverflowError], one that rounds to zero is
    zero.  A finite double is kept as its sign, its significand and the
    exponent of its last place: the number [± significand * 2^exponent],
    with the significand at most [2^53] and the exponent at least
    [-1074]. *)
Record float := { negative : bool; significand : Z; exponent : Z }.

(** The integer nearest to [n / d], for [n >= 0] and [d > 0]; ties to even. *)
Definition round_half_even (n d : Z) : Z :=
  let q := n / d in
  let r := n mod d in
  if 2 * r <? d then q
  else if d <? 2 * r then q + 1
  else if Z.even q then q else q + 1.

(** The [k] with [2^k <= a / b < 2^(k+1)], for [a > 0] and [b > 0]. *)
Definition floor_log2_quot (a b : Z) : Z :=
  let k := Z.log2 a - Z.log2 b in
  if (if 0 <=? k then b * 2 ^ k <=? a else b <=? a * 2 ^ (- k))
  then k else k - 1.

(** The double nearest to [a / b], for [a > 0] and [b > 0], before the
    test for overflow: 53 bits below the leading one are kept, fewer when
    the quotient is below [2^-1022]. *)
Definition truediv_pos (a b : Z) : Z * Z :=
  let e := Z.max (-1074) (floor_log2_quot a b - 52) in
  let m := if 0 <=? e then round_half_even a (b * 2 ^ e)
           else round_half_even (a * 2 ^ (- e)) b in
  (m, e).

(** [a / b] *)
Definition truediv (a b : Z) : result float :=
  if b =? 0 then Raise (ZeroDivisionError "division by zero")
  else if a =? 0 then
    Ok {| negative := b <? 0; significand := 0; exponent := 0 |}
  else
    let '(m, e) := truediv_pos (Z.abs a) (Z.abs b) in
    if (0 <=? e) && (2 ^ 1024 <=? m * 2 ^ e) then
      Raise (OverflowError "integer division result too large for a float")
    else Ok {| negative := xorb (a <? 0) (b <? 0);
               significand := m; exponent := e |}.

(** [math.ceil(x)] for a finite double [x]: an integer, exactly. *)
Definition ceil (x : float) : Z :=
  if 0 <=? exponent x then
    let v := significand x * 2 ^ exponent x in
    if negative x then - v else v
  else
    let d := 2 ^ (- exponent x) in
    if negative x then - (significand x / d) else - ((- significand x) / d).

(** [ceil(a / b)], as line 47 computes it. *)
Definition ceil_truediv (a b : Z) : result Z :=
  x ← truediv a b; Ok (ceil x).

End Py.

(** ** [pydat/api/controller/v1/query.py] *)

Module Query.

(** [request.args]: the parameters of the query string, in the order they
    were sent; [get] answers with the first value stored under the key. *)
Definition args := list (string * string).

Fixpoint args_lookup (a : args) (key : string) : option string :=
  match a with
  | [] => None
  | (k, v) :: rest => if String.eqb k key then Some v else args_lookup rest key
  end.

(** [request.args.get(key, default=default)] *)
Definition get (a : args) (key : string) (default : Py.value) : Py.value :=
  match args_lookup a key with
  | Some v => Py.Str v
  | None => default
  end.

(** What [elastic.advanced_search] returns: a mapping with the number of
    matching documents under ['total'] and the documents of the page. *)
Record results := { total : Z; items : list string }.

(** The backend call [elastic.advanced_search(query, skip, size, unique)].
    [elastic.ConnectionError] is the connection failure of
    [pydat/core/elastic/exceptions.py]; the backend may raise anything. *)
Definition backend := string -> Z -> Z -> bool -> result results.

(** Lines 19 to 23 of the file are the two sides of a merge that was left
    unresolved; each side is one version of the test on [unique]. *)
Inductive merge_side : Type :=
| HEAD       (* if str(unique).lower() == 'true': *)
| Incoming.  (* if unique.lower() == 'true':      *)

Definition unique_is_true (side : merge_side) (unique : Py.value)
  : result bool :=
  match side with
  | HEAD => Ok (String.eqb (Py.lower (Py.str unique)) "true")
  | Incoming => l ← Py.lower_method unique; Ok (String.eqb l "true")
  end.

(** The typed parameters, as they leave the first [try] block.  [text] is
    [None] when the request has no [query] parameter. *)
Record params := {
  text : option string;
  page_size : Z;
  page_num : Z;
  unique : bool
}.

(** Lines 14 to 28: the [try] block that reads the four parameters. *)
Definition parse (side : merge_side) (a : args) : result params :=
  except_ValueError
    (let query := args_lookup a "query" in
     page_size ← Py.int (get a "size" (Py.Int 20));
     page_num ← Py.int (get a "page" (Py.Int 1));
     let unique := get a "unique" (Py.Bool false) in
     unique ← unique_is_true side unique;
     Ok {| text := query; page_size := page_size;
           page_num := page_num; unique := unique |})
    (ClientError "Input paramaters are of the wrong type").

(** Lines 33 to 37: the message of the range check, if it fails. *)
Definition range_error (page_size page_num : Z) : option string :=
  if page_size <? 1 then
    Some ("Invalid page size " ++ pretty page_size ++ " provided")
  else if page_num <? 1 then
    Some ("Invalid page number " ++ pretty page_num)
  else None.

(** Lines 30 to 50: everything after the parameters are read. *)
Definition search (advanced_search : backend) (p : params) : result results :=
  match text p with
  | None => Raise (ClientError "Query required")
  | Some query =>
      match range_error (page_size p) (page_num p) with
      | Some error => Raise (ClientError error)
      | None =>
          let skip := (page_num p - 1) * page_size p in
          results ← except_ConnectionError
                      (advanced_search query skip (page_size p) (unique p))
                      (ServerError "Search failed to connect");
          last_page ← Py.ceil_truediv (total results) (page_size p);
          if page_num p >? last_page then
            Raise (ClientError
                     ("Page number " ++ pretty (page_num p) ++ " is too high"))
          else Ok results
      end
  end.

(** The view function [query]. *)
Definition query (side : merge_side) (advanced_search : backend) (a : args)
  : result results :=
  p ← parse side a; search advanced_search p.

(** Whether the [size] and [page] parameters of a request, where they are
    present, are ASCII text: the requests on which [Py.int] is modelled in
    full. *)
Definition ascii_paging (a : args) : bool :=
  match args_lookup a "size" with Some v => Py.is_ascii v | None => true end &&
  match args_lookup a "page" with Some v => Py.is_ascii v | None => true end.

(** A backend that finds [n] documents and returns the page [docs]. *)
Definition backend_total (n : Z) (docs : list string) : backend :=
  fun _ _ _ _ => Ok {| total := n; items := docs |}.

(** A backend that cannot be reached. *)
Definition backend_down : backend := fun _ _ _ _ => Raise ESConnectionError.

End Query.

(** ** [pydat/core/plugins.py] *)

Module Plugins.

(** A [flask.Blueprint]: its name and the import name it was made with. *)
Record Blueprint := { bp_name : string; import_name : string }.

(** What a call of [blueprint()] can return: a [Blueprint], or some other
    value (of which only the class matters). *)
Inductive route_object : Type :=
| ABlueprint (b : Blueprint)
| NotABlueprint (class_ : string).

(** A plugin's preferences: parameter name to the name of its value type. *)
Abbreviation preferences := (gmap string string).

(** An object as [register] sees it: its class, whether that class extends
    [PluginBase], the two attributes set by [PluginBase.__init__], and the
    outcome of calling its [blueprint()] method.  The two attributes can
    always be read here, as they can on every object on which
    [PluginBase.__init__] ran: an object on which reading [user_pref] or
    [name] raises is outside this type. *)
Record object := {
  class_ : string;
  isinstance_PluginBase : bool;
  name : string;
  user_pref : option preferences;
  blueprint : result route_object
}.

(** [s.split('.')[-1]]: the text after the last dot. *)
Fixpoint last_component (acc : string) (s : string) : string :=
  match s with
  | EmptyString => acc
  | String c r =>
      if Ascii.eqb c "." then last_component EmptyString r
      else last_component (acc ++ String c EmptyString)%string r
  end.

Definition set_name (module_ : string) : string :=
  last_component EmptyString module_.

Definition set_user_pref : option preferences := None.

(** An instance of [PluginBase] itself, made in module [module_]. *)
Definition PluginBase (module_ : string) : object :=
  {| class_ := (module_ ++ ".PluginBase")%string;
     isinstance_PluginBase := true;
     name := set_name module_;
     user_pref := set_user_pref;
     blueprint := Raise (NotImplementedError "Plugin must have blueprint") |}.

(** The two module-level globals. *)
Record registry := {
  PLUGINS : list object;
  USER_PREF : gmap string preferences
}.

Definition empty_registry : registry := {| PLUGINS := []; USER_PREF := ∅ |}.

(** Code that reads and writes the globals and may raise: the registry
    goes in, and comes out together with the outcome. *)
Definition M (A : Type) : Type := registry -> result A * registry.

Definition ret {A} (a : A) : M A := fun s => (Ok a, s).

Definition raise {A} (e : exn) : M A := fun s => (Raise e, s).

Definition lift {A} (r : result A) : M A := fun s => (r, s).

Definition bindM {A B} (m : M A) (k : A -> M B) : M B :=
  fun s =>
    match m s with
    | (Ok a, s') => k a s'
    | (Raise e, s') => (Raise e, s')
    end.

(** [PLUGINS.append(plugin)] *)
Definition PLUGINS_append (plugin : object) : M unit :=
  fun s => (Ok tt, {| PLUGINS := PLUGINS s ++ [plugin];
                      USER_PREF := USER_PREF s |}).

(** [USER_PREF[key] = pref] *)
Definition USER_PREF_setitem (key : string) (pref : preferences) : M unit :=
  fun s => (Ok tt, {| PLUGINS := PLUGINS s;
                      USER_PREF := <[key := pref]> (USER_PREF s) |}).

Notation "x <~ m ;; k" := (bindM m (fun x => k))
  (at level 100, m at next level, right associativity, only parsing).

(** The messages of the two [TypeError]s of [register]. *)
Definition wrong_type_message (plugin : object) : string :=
  ("Cannot register plugin: wrong type <class '" ++ class_ plugin ++ "'>")%string.

Definition no_blueprint_message : string :=
  "Cannot register plugin, must return a blueprint".

(** [register(func)]: the function [wrapped], called with arguments [a]. *)
Definition register {A} (func : A -> result object) (a : A) : M object :=
  plugin <~ lift (func a) ;;
  if negb (isinstance_PluginBase plugin) then
    raise (TypeError (wrong_type_message plugin))
  else
    plugin_bp <~ lift (blueprint plugin) ;;
    match plugin_bp with
    | NotABlueprint _ =>
        raise (TypeError no_blueprint_message)
    | ABlueprint _ =>
        _ <~ PLUGINS_append plugin ;;
        _ <~ match user_pref plugin with
             | Some pref => USER_PREF_setitem (name plugin) pref
             | None => ret tt
             end ;;
        ret plugin
    end.

(** The registry a call leaves behind, whatever its outcome. *)
Definition after {A} (m : M A) (s : registry) : registry := snd (m s).

Definition outcome {A} (m : M A) (s : registry) : result A := fst (m s).

(** A plugin that passed both checks of [register]. *)
Definition validated (p : object) : bool :=
  isinstance_PluginBase p &&
  match blueprint p with
  | Ok (ABlueprint _) => true
  | _ => false
  end.

(** The invariant of the two globals. *)
Definition registry_inv (s : registry) : Prop :=
  Forall (fun p => validated p = true) (PLUGINS s) /\
  forall key : string, is_Some (USER_PREF s !! key) ->
     exists p, p ∈ PLUGINS s /\ name p = key.

(** The registries the process can be in: empty at first, then changed by
    calls of registered factories only. *)
Inductive reachable : registry -> Prop :=
| reachable_empty : reachable empty_registry
| reachable_register {A} (func : A -> result object) (a : A) s :
    reachable s -> reachable (after (register func a) s).

(** *** Sample candidates *)

(** A plugin class that overrides [blueprint()], [name] and [user_pref]. *)
Definition TestPlugin (user_pref : option preferences) (name : string)
  : object :=
  {| class_ := "tests.conftest.TestPlugin";
     isinstance_PluginBase := true;
     name := name;
     user_pref := user_pref;
     blueprint := Ok (ABlueprint {| bp_name := name;
                                    import_name := "tests.conftest" |}) |}.

(** A plugin class whose [blueprint()] returns [None]. *)
Definition NoRoutesPlugin (name : string) : object :=
  {| class_ := "pydat.plugins.broken.NoRoutesPlugin";
     isinstance_PluginBase := true;
     name := name;
     user_pref := Some {[ "limit" := "int" ]};
     blueprint := Ok (NotABlueprint "NoneType") |}.

(** A [dict] returned by a factory: no [PluginBase], no [blueprint()]. *)
Definition a_dict : object :=
  {| class_ := "dict";
     isinstance_PluginBase := false;
     name := "";
     user_pref := None;
     blueprint := Raise (AttributeError
                           "'dict' object has no attribute 'blueprint'") |}.

(** The factory [start_plugin] of a plugin module: it takes no argument. *)
Definition start_plugin (plugin : object) : unit -> result object :=
  fun _ => Ok plugin.

End Plugins.

(** ** Discovery: [get_plugins] and the modules it imports *)

Module Discovery.

Import Plugins.

(** [for x in xs: body(x)]; a body that raises ends the loop. *)
Fixpoint for_each {X} (xs : list X) (body : X -> M unit) : M unit :=
  match xs with
  | [] => ret tt
  | x :: rest => bindM (body x) (fun _ => for_each rest body)
  end.

(** [get_plugins(ns_pkg)].  [iter_modules] stands for the module names
    that [pkgutil.iter_modules] yields for the namespace package, in its
    order; [import_module name] is what running [importlib.import_module]
    on a name does to the two globals.  The function returns [PLUGINS]. *)
Definition get_plugins (iter_modules : list string)
    (import_module : string -> M unit) : M (list object) :=
  bindM (for_each iter_modules import_module)
        (fun _ => fun s => (Ok (PLUGINS s), s)).

(** The top-level code of a plugin module: a factory decorated with
    [@register] is called once, and what it returns is dropped. *)
Definition plugin_module {A} (func : A -> result object) (a : A) : M unit :=
  bindM (register func a) (fun _ => ret tt).

(** The dictionary assignment of line 82, for one plugin. *)
Definition store_pref (m : gmap string preferences) (plugin : object)
  : gmap string preferences :=
  match user_pref plugin with
  | Some pref => <[name plugin := pref]> m
  | None => m
  end.

(** The preferences dictionary built from a list of plugins by doing the
    assignment of line 82 for each, first to last: later plugins win. *)
Definition prefs_of (plugins : list object) : gmap string preferences :=
  foldl store_pref ∅ plugins.

(** The registry after the plugins of a list were appended to [PLUGINS]
    and their preferences stored, one plugin after the other. *)
Definition with_plugins (s : registry) (plugins : list object) : registry :=
  {| PLUGINS := PLUGINS s ++ plugins;
     USER_PREF := foldl store_pref (USER_PREF s) plugins |}.

(** Whether a dot occurs in a string. *)
Fixpoint has_dot (s : string) : bool :=
  match s with
  | EmptyString => false
  | String c r => Ascii.eqb c "." || has_dot r
  end.

End Discovery.

(** * Properties of the controller *)

Import Query.

(** ** The builtins *)

Example int_of_string_20 : Py.int_of_string "20" = Some 20.
Proof. reflexivity. Qed.

Example int_of_string_signed : Py.int_of_string " -1_000 " = Some (-1000).
Proof. reflexivity. Qed.

Example int_of_string_abc : Py.int_of_string "abc" = None.
Proof. reflexivity. Qed.

Example int_of_string_bad_group : Py.int_of_string "1__0" = None.
Proof. reflexivity. Qed.

Example lower_TRUE : Py.lower "TRUE" = "true".
Proof. reflexivity. Qed.

Example ceil_div_7_2 : Py.ceil_div 7 2 = 4.
Proof. reflexivity. Qed.

Example ceil_div_0_20 : Py.ceil_div 0 20 = 0.
Proof. reflexivity. Qed.

(** [ceil_div a b] is the least [n] with [a <= n * b]. *)
Lemma ceil_div_least (a b n : Z) :
  0 < b -> Py.ceil_div a b <= n <-> a <= n * b.
Proof.
  intros Hb. unfold Py.ceil_div.
  split; intros H.
  - assert (- n <= (- a) / b) as Hq by lia.
    pose proof (Z.mul_div_le (- a) b Hb). nia.
  - assert (- n <= (- a) / b); [|lia].
    apply Z.div_le_lower_bound; lia.
Qed.

Lemma ceil_div_pos (a b : Z) : 0 < b -> 0 < a -> 1 <= Py.ceil_div a b.
Proof.
  intros Hb Ha.
  destruct (Z_le_gt_dec (Py.ceil_div a b) 0) as [H|H]; [|lia].
  apply ceil_div_least in H; lia.
Qed.

(** ** The division of line 47 *)

Example ceil_truediv_41_20 : Py.ceil_truediv 41 20 = Ok 3.
Proof. reflexivity. Qed.

Example ceil_truediv_0_20 : Py.ceil_truediv 0 20 = Ok 0.
Proof. reflexivity. Qed.

(** Above [2^53] the quotient is rounded: here to the next even number. *)
Example ceil_truediv_rounds_up :
  Py.ceil_truediv (2 ^ 53 + 3) 1 = Ok (2 ^ 53 + 4).
Proof. vm_compute. reflexivity. Qed.

(** A quotient below half of the smallest double is zero. *)
Example ceil_truediv_underflow : Py.ceil_truediv 1 (2 ^ 1075) = Ok 0.
Proof. vm_compute. reflexivity. Qed.

Example ceil_truediv_overflow :
  Py.ceil_truediv (2 ^ 1024) 1
  = Raise (OverflowError "integer division result too large for a float").
Proof. vm_compute. reflexivity. Qed.

Lemma round_half_even_le (n d M : Z) :
  0 <= n -> 0 < d -> n <= M * d -> Py.round_half_even n d <= M.
Proof.
  intros Hn Hd HM. unfold Py.round_half_even.
  pose proof (Z.div_mod n d ltac:(lia)) as Hdm.
  pose proof (Z.mod_pos_bound n d Hd) as Hr.
  assert (n / d <= M) as Hq by nia.
  destruct (Z.ltb_spec (2 * (n mod d)) d); [lia|].
  assert (n / d < M) by nia.
  destruct (Z.ltb_spec d (2 * (n mod d))); [lia|].
  destruct (Z.even (n / d)); lia.
Qed.

Lemma round_half_even_gt (n d M : Z) :
  0 <= n -> 0 < d -> d < 2 * (n - M * d) -> M + 1 <= Py.round_half_even n d.
Proof.
  intros Hn Hd HM. unfold Py.round_half_even.
  pose proof (Z.div_mod n d ltac:(lia)) as Hdm.
  pose proof (Z.mod_pos_bound n d Hd) as Hr.
  assert (M <= n / d) as Hq by nia.
  destruct (Z.ltb_spec (2 * (n mod d)) d) as [H1|H1]; [nia|].
  destruct (Z.ltb_spec d (2 * (n mod d))) as [H2|H2]; [lia|].
  assert (M < n / d) by nia.
  destruct (Z.even (n / d)); lia.
Qed.

Lemma round_half_even_nonneg (n d : Z) :
  0 <= n -> 0 < d -> 0 <= Py.round_half_even n d.
Proof.
  intros Hn Hd. unfold Py.round_half_even.
  pose proof (Z.div_pos n d Hn Hd).
  repeat case_match; lia.
Qed.

(** The exponent chosen for the quotient is at most the true one. *)
Lemma floor_log2_quot_spec (a b : Z) :
  0 < a -> 0 < b ->
  let k := Py.floor_log2_quot a b in
  k <= Z.log2 a - Z.log2 b /\
  Z.log2 a - Z.log2 b - 1 <= k /\
  (0 <= k -> b * 2 ^ k <= a) /\
  (k < 0 -> b <= a * 2 ^ (- k)).
Proof.
  intros Ha Hb. unfold Py.floor_log2_quot.
  set (k0 := Z.log2 a - Z.log2 b).
  destruct (Z.log2_spec a Ha) as [Ha1 Ha2].
  destruct (Z.log2_spec b Hb) as [Hb1 Hb2].
  pose proof (Z.log2_nonneg a) as Hla. pose proof (Z.log2_nonneg b) as Hlb.
  destruct (Z.leb_spec 0 k0) as [Hk|Hk].
  - destruct (Z.leb_spec (b * 2 ^ k0) a) as [Ht|Ht]; cbn zeta.
    + repeat split; lia.
    + repeat split; try lia.
      * intros Hk1.
        assert (2 ^ Z.log2 a = 2 ^ (k0 - 1) * 2 ^ Z.succ (Z.log2 b)) as E.
        { rewrite <- Z.pow_add_r by lia. f_equal; lia. }
        assert (0 < 2 ^ (k0 - 1)) by (apply Z.pow_pos_nonneg; lia).
        nia.
      * intros Hk1. assert (k0 = 0) as E0 by lia.
        replace (- (k0 - 1)) with 1 by lia.
        assert (Z.log2 a = Z.log2 b) as El by lia.
        rewrite El in Ha1. rewrite Z.pow_succ_r in Hb2 by lia. lia.
  - destruct (Z.leb_spec b (a * 2 ^ (- k0))) as [Ht|Ht]; cbn zeta.
    + repeat split; lia.
    + repeat split; try lia.
      intros _. replace (- (k0 - 1)) with (Z.succ (- k0)) by lia.
      rewrite Z.pow_succ_r by lia.
      assert (2 ^ Z.succ (Z.log2 b) = 2 * (2 ^ (- k0) * 2 ^ Z.log2 a)) as E.
      { rewrite <- Z.pow_add_r by lia. rewrite <- Z.pow_succ_r by lia.
        f_equal; lia. }
      assert (0 < 2 ^ (- k0)) by (apply Z.pow_pos_nonneg; lia).
      nia.
Qed.

(** For a dividend below [2^53] no bit above the unit is dropped: the
    exponent of the last place is at most 0. *)
Lemma truediv_pos_small (a b : Z) :
  0 < a < 2 ^ 53 -> 1 <= b ->
  exists m e, Py.truediv_pos a b = (m, e) /\ e <= 0 /\
              m = Py.round_half_even (a * 2 ^ (- e)) b.
Proof.
  intros Ha Hb. unfold Py.truediv_pos.
  destruct (floor_log2_quot_spec a b) as (Hk & _); [lia|lia|].
  assert (Z.log2 a < 53) by (apply Z.log2_lt_pow2; lia).
  pose proof (Z.log2_nonneg b).
  set (e := Z.max (-1074) (Py.floor_log2_quot a b - 52)).
  assert (e <= 0) as He by lia.
  eexists _, e. split; [reflexivity|]. split; [done|].
  destruct (Z.leb_spec 0 e); [|done].
  replace e with 0 by lia. simpl. by rewrite !Z.mul_1_r.
Qed.

(** With a divisor below [2^53] as well, the last place of the quotient is
    finer than twice the reciprocal of the divisor. *)
Lemma truediv_pos_fine (a b : Z) :
  0 < a < 2 ^ 53 -> 1 <= b < 2 ^ 53 ->
  b < 2 * 2 ^ (- snd (Py.truediv_pos a b)).
Proof.
  intros Ha Hb. unfold Py.truediv_pos. cbn [snd].
  destruct (floor_log2_quot_spec a b) as (Hk1 & Hk2 & Hk3 & Hk4); [lia|lia|].
  assert (Z.log2 a < 53) by (apply Z.log2_lt_pow2; lia).
  assert (Z.log2 b < 53) by (apply Z.log2_lt_pow2; lia).
  pose proof (Z.log2_nonneg a). pose proof (Z.log2_nonneg b).
  set (k := Py.floor_log2_quot a b) in *.
  replace (Z.max (-1074) (k - 52)) with (k - 52) by lia.
  replace (- (k - 52)) with (52 - k) by lia.
  rewrite <- Z.pow_succ_r by lia. replace (Z.succ (52 - k)) with (53 - k) by lia.
  destruct (Z.le_gt_cases 0 k) as [Hk|Hk].
  - assert (2 ^ 53 = 2 ^ k * 2 ^ (53 - k)) as E.
    { rewrite <- Z.pow_add_r by lia. f_equal; lia. }
    assert (0 < 2 ^ k) by (apply Z.pow_pos_nonneg; lia).
    specialize (Hk3 Hk). nia.
  - assert (2 ^ (53 - k) = 2 ^ 53 * 2 ^ (- k)) as E.
    { rewrite <- Z.pow_add_r by lia. f_equal; lia. }
    assert (0 < 2 ^ (- k)) by (apply Z.pow_pos_nonneg; lia).
    specialize (Hk4 Hk). nia.
Qed.

(** The ceiling of a non-negative double with exponent at most 0. *)
Lemma ceil_small_exponent (m e : Z) :
  e <= 0 ->
  Py.ceil {| Py.negative := false; Py.significand := m; Py.exponent := e |}
  = Py.ceil_div m (2 ^ (- e)).
Proof.
  intros He. unfold Py.ceil, Py.ceil_div. simpl.
  destruct (Z.leb_spec 0 e); [|done].
  replace e with 0 by lia. simpl. rewrite Z.div_1_r. lia.
Qed.

(** What line 47 computes for a count below [2^53]: a number of pages that
    is never above the exact one. *)
Lemma ceil_truediv_le_exact (a b : Z) :
  0 <= a < 2 ^ 53 -> 1 <= b ->
  exists c, Py.ceil_truediv a b = Ok c /\ 0 <= c <= Py.ceil_div a b.
Proof.
  intros Ha Hb. unfold Py.ceil_truediv, Py.truediv.
  destruct (Z.eqb_spec b 0); [lia|].
  destruct (Z.eqb_spec a 0) as [->|Hne].
  - exists 0. split.
    + simpl. destruct (Z.ltb_spec b 0); [lia|]. reflexivity.
    + unfold Py.ceil_div. simpl. rewrite Z.div_0_l; lia.
  - rewrite (Z.abs_eq a), (Z.abs_eq b) by lia.
    destruct (truediv_pos_small a b) as (m & e & -> & He & Hm); [lia|lia|].
    set (E := 2 ^ (- e)) in *.
    assert (0 < E) by (apply Z.pow_pos_nonneg; lia).
    set (N := Py.ceil_div a b).
    assert (a <= N * b) as HN by (apply ceil_div_least; lia).
    assert (N <= a) as HNa by (apply ceil_div_least; nia).
    assert (m <= N * E) as HmN.
    { rewrite Hm. apply round_half_even_le; nia. }
    assert (0 <= m) as Hm0.
    { rewrite Hm. apply round_half_even_nonneg; nia. }
    assert ((0 <=? e) && (2 ^ 1024 <=? m * 2 ^ e) = false) as ->.
    { destruct (Z.leb_spec 0 e); [|done].
      assert (e = 0) as He0 by lia.
      assert (E = 1) as HE1 by (subst E; by rewrite He0).
      rewrite He0, Z.pow_0_r, Z.mul_1_r. cbn [andb].
      apply Z.leb_gt.
      assert (2 ^ 53 < 2 ^ 1024) by (apply Z.pow_lt_mono_r; lia). lia. }
    destruct (Z.ltb_spec a 0); [lia|]. destruct (Z.ltb_spec b 0); [lia|].
    simpl. eexists. split; [reflexivity|].
    rewrite ceil_small_exponent by done. fold E. split.
    + destruct (Z_le_gt_dec (Py.ceil_div m E) (-1)) as [Hc|Hc]; [|lia].
      apply ceil_div_least in Hc; nia.
    + apply ceil_div_least; lia.
Qed.

(** For a count and a page size below [2^53], line 47 computes the exact
    number of pages. *)
Lemma ceil_truediv_exact (a b : Z) :
  0 <= a < 2 ^ 53 -> 1 <= b < 2 ^ 53 ->
  Py.ceil_truediv a b = Ok (Py.ceil_div a b).
Proof.
  intros Ha Hb.
  destruct (ceil_truediv_le_exact a b) as (c & Hc & Hc0 & HcN); [lia|lia|].
  rewrite Hc. f_equal.
  destruct (Z.eq_dec a 0) as [->|Hne].
  { unfold Py.ceil_div in *. simpl in *. rewrite Z.div_0_l in * by lia. lia. }
  revert Hc. unfold Py.ceil_truediv, Py.truediv.
  destruct (Z.eqb_spec b 0); [lia|]. destruct (Z.eqb_spec a 0); [lia|].
  rewrite (Z.abs_eq a), (Z.abs_eq b) by lia.
  pose proof (truediv_pos_fine a b ltac:(lia) ltac:(lia)) as Hfine.
  destruct (truediv_pos_small a b) as (m & e & Hdiv & He & Hm); [lia|lia|].
  rewrite Hdiv in *. cbn [snd] in Hfine.
  set (E := 2 ^ (- e)) in *.
  assert (0 < E) by (apply Z.pow_pos_nonneg; lia).
  destruct ((0 <=? e) && (2 ^ 1024 <=? m * 2 ^ e)); [done|].
  destruct (Z.ltb_spec a 0); [lia|]. destruct (Z.ltb_spec b 0); [lia|].
  simpl. rewrite ceil_small_exponent by done. fold E. intros [= <-].
  set (N := Py.ceil_div a b) in *.
  assert (~ a <= (N - 1) * b) as HN.
  { intros H'. apply (ceil_div_least a b (N - 1)) in H'; lia. }
  assert ((N - 1) * E + 1 <= m) as HmN.
  { rewrite Hm. apply round_half_even_gt; nia. }
  destruct (Z_le_gt_dec N (Py.ceil_div m E)) as [Hc|Hc]; [lia|].
  assert (Py.ceil_div m E <= N - 1) as Hc' by lia.
  apply ceil_div_least in Hc'; lia.
Qed.

(** The division of line 47 gives a number or raises [OverflowError]. *)
Lemma ceil_truediv_cases (a b : Z) :
  b <> 0 ->
  (exists c, Py.ceil_truediv a b = Ok c) \/
  Py.ceil_truediv a b
    = Raise (OverflowError "integer division result too large for a float").
Proof.
  intros Hb. unfold Py.ceil_truediv, Py.truediv.
  destruct (Z.eqb_spec b 0); [done|].
  destruct (a =? 0); [left; simpl; eauto|].
  destruct (Py.truediv_pos (Z.abs a) (Z.abs b)) as [m e].
  destruct ((0 <=? e) && (2 ^ 1024 <=? m * 2 ^ e)); [by right|].
  left. simpl. eauto.
Qed.

(** The division of line 47 cannot overflow for a count below [2^53] in
    absolute value. *)
Lemma ceil_truediv_no_overflow (a b : Z) :
  Z.abs a < 2 ^ 53 -> 1 <= b -> exists c, Py.ceil_truediv a b = Ok c.
Proof.
  intros Ha Hb. unfold Py.ceil_truediv, Py.truediv.
  destruct (Z.eqb_spec b 0); [lia|].
  destruct (Z.eqb_spec a 0) as [->|Hne]; [simpl; eauto|].
  rewrite (Z.abs_eq b) by lia.
  destruct (truediv_pos_small (Z.abs a) b) as (m & e & -> & He & Hm);
    [lia|lia|].
  set (E := 2 ^ (- e)) in *.
  assert (0 < E) by (apply Z.pow_pos_nonneg; lia).
  set (N := Py.ceil_div (Z.abs a) b).
  assert (Z.abs a <= N * b) as HN by (apply ceil_div_least; lia).
  assert (N <= Z.abs a) as HNa by (apply ceil_div_least; nia).
  assert (m <= N * E) as HmN.
  { rewrite Hm. apply round_half_even_le; nia. }
  assert ((0 <=? e) && (2 ^ 1024 <=? m * 2 ^ e) = false) as ->.
  { destruct (Z.leb_spec 0 e); [|done].
    assert (e = 0) as He0 by lia.
    assert (E = 1) as HE1 by (subst E; by rewrite He0).
    rewrite He0, Z.pow_0_r, Z.mul_1_r. cbn [andb].
    apply Z.leb_gt.
    assert (2 ^ 53 < 2 ^ 1024) by (apply Z.pow_lt_mono_r; lia). lia. }
  simpl. eauto.
Qed.

(** A string is an integer literal or [int] raises [ValueError]; the default
    values are integers already. *)
Lemma int_get_cases (a : args) (key : string) (d : Z) :
  (exists z, Py.int (get a key (Py.Int d)) = Ok z) \/
  (exists m, Py.int (get a key (Py.Int d)) = Raise (ValueError m)).
Proof.
  unfold get. destruct (args_lookup a key) as [v|]; simpl.
  - destruct (Py.int_of_string v); eauto.
  - eauto.
Qed.

(** On the text of a parameter both sides of the merge compute the same. *)
Lemma unique_is_true_Str (side : merge_side) (s : string) :
  unique_is_true side (Py.Str s) = Ok (String.eqb (Py.lower s) "true").
Proof. destruct side; reflexivity. Qed.

Lemma unique_is_true_HEAD_total (v : Py.value) :
  exists b, unique_is_true HEAD v = Ok b.
Proof. simpl. eauto. Qed.

(** With the [HEAD] side of the merge, reading the parameters gives typed
    values or the [ClientError] of the handler, whatever the request. *)
Lemma parse_HEAD_typed (a : args) :
  (exists p, parse HEAD a = Ok p) \/
  parse HEAD a = Raise (ClientError "Input paramaters are of the wrong type").
Proof.
  unfold parse.
  destruct (int_get_cases a "size" 20) as [[ps ->]|[m ->]]; simpl; [|by right].
  destruct (int_get_cases a "page" 1) as [[pn ->]|[m ->]]; simpl; [|by right].
  left. eauto.
Qed.

(** On the [Incoming] side the same holds for the requests that carry a
    [unique] parameter. *)
Lemma parse_Incoming_typed (a : args) :
  is_Some (args_lookup a "unique") ->
  (exists p, parse Incoming a = Ok p) \/
  parse Incoming a
    = Raise (ClientError "Input paramaters are of the wrong type").
Proof.
  intros [v Hv]. unfold parse.
  destruct (int_get_cases a "size" 20) as [[ps ->]|[m ->]]; simpl; [|by right].
  destruct (int_get_cases a "page" 1) as [[pn ->]|[m ->]]; simpl; [|by right].
  left. unfold get. rewrite Hv. simpl. eauto.
Qed.

(** [parse] when every step succeeds. *)
Lemma parse_Ok (side : merge_side) (a : args) (ps pn : Z) (u : bool) :
  Py.int (get a "size" (Py.Int 20)) = Ok ps ->
  Py.int (get a "page" (Py.Int 1)) = Ok pn ->
  unique_is_true side (get a "unique" (Py.Bool false)) = Ok u ->
  parse side a = Ok {| text := args_lookup a "query"; page_size := ps;
                       page_num := pn; unique := u |}.
Proof. intros Hs Hp Hu. unfold parse. rewrite Hs, Hp. simpl. by rewrite Hu. Qed.

Lemma query_parsed (side : merge_side) (b : backend) (a : args) (p : params) :
  parse side a = Ok p -> query side b a = search b p.
Proof. intros H. unfold query. by rewrite H. Qed.

Lemma range_error_None (ps pn : Z) :
  range_error ps pn = None <-> 1 <= ps /\ 1 <= pn.
Proof.
  unfold range_error.
  destruct (Z.ltb_spec ps 1), (Z.ltb_spec pn 1); split; (lia || done || intros [??]; lia).
Qed.

(** ** The page bound *)

(** A request with query text and valid paging, answered by the backend,
    is decided by the test of line 47. *)
Lemma search_bound_check (b : backend) (p : params) (q : string)
    (r : results) :
  text p = Some q -> 1 <= page_size p -> 1 <= page_num p ->
  b q ((page_num p - 1) * page_size p) (page_size p) (unique p) = Ok r ->
  search b p =
    (last_page ← Py.ceil_truediv (total r) (page_size p);
     if page_num p >? last_page then
       Raise (ClientError
                ("Page number " ++ pretty (page_num p) ++ " is too high"))
     else Ok r).
Proof.
  intros Hq Hps Hpn Hb. unfold search. rewrite Hq.
  assert (range_error (page_size p) (page_num p) = None) as ->
    by (apply range_error_None; lia).
  by rewrite Hb.
Qed.

(** When the backend finds at least one document, the first page passes the
    check of line 47 and the page of the backend is returned (for counts
    and page sizes below [2^53], where the division is exact). *)
Lemma first_page_of_nonempty_result (b : backend) (p : params)
    (q : string) (r : results) :
  text p = Some q -> 1 <= page_size p < 2 ^ 53 -> page_num p = 1 ->
  b q 0 (page_size p) (unique p) = Ok r -> 1 <= total r < 2 ^ 53 ->
  search b p = Ok r.
Proof.
  intros Hq Hps Hpn Hb Ht.
  rewrite (search_bound_check b p q r); try done; try lia.
  - rewrite ceil_truediv_exact by lia. simpl.
    pose proof (ceil_div_pos (total r) (page_size p)).
    destruct (Z.gtb_spec (page_num p) (Py.ceil_div (total r) (page_size p)));
      [lia|done].
  - rewrite Hpn. by replace ((1 - 1) * page_size p) with 0 by lia.
Qed.

(** C1, at the input where the code departs from it: the request
    [query=x&size=20&page=1&unique=false] against a backend that finds no
    document.  [ceil(0 / 20)] is [0], the test [1 > 0] of line 47 succeeds,
    and the controller raises [ClientError] instead of returning the empty
    page.  Both sides of the merge behave so. *)
Theorem first_page_of_empty_result_rejected :
  forall side : merge_side,
    query side (backend_total 0 [])
      [("query", "x"); ("size", "20"); ("page", "1"); ("unique", "false")]
    = Raise (ClientError "Page number 1 is too high").
Proof. intros []; reflexivity. Qed.

(** A backend that reports [2^53 + 3] documents, asked with page size 1
    for page [2^53 + 4]: the page number is above the exact number of
    pages, [2^53 + 3], but line 47 divides in double precision, where the
    quotient rounds to [2^53 + 4]; the test fails and the page of the
    backend is returned. *)
Lemma page_beyond_last_of_huge_total_returned :
  9007199254740996 > Py.ceil_div (2 ^ 53 + 3) 1 /\
  query HEAD (backend_total (2 ^ 53 + 3) [])
    [("query", "x"); ("size", "1"); ("page", "9007199254740996")]
  = Ok {| total := 2 ^ 53 + 3; items := [] |}.
Proof. split; vm_compute; reflexivity. Qed.

(** C7, amended: when the backend reports a count from 0 to below [2^53],
    a page number above [ceil(total / page_size)] is answered by the
    [ClientError] of line 48, for every request that reaches the backend,
    whatever the page size. *)
Theorem page_beyond_last_rejected (side : merge_side) (b : backend)
    (a : args) (p : params) (q : string) (r : results) :
  parse side a = Ok p ->
  text p = Some q -> 1 <= page_size p -> 1 <= page_num p ->
  b q ((page_num p - 1) * page_size p) (page_size p) (unique p) = Ok r ->
  0 <= total r < 2 ^ 53 ->
  page_num p > Py.ceil_div (total r) (page_size p) ->
  query side b a =
    Raise (ClientError ("Page number " ++ pretty (page_num p) ++ " is too high")).
Proof.
  intros Hparse Hq Hps Hpn Hb Ht Hhigh.
  rewrite (query_parsed _ _ _ _ Hparse).
  rewrite (search_bound_check b p q r) by done.
  destruct (ceil_truediv_le_exact (total r) (page_size p)) as (c & -> & Hc);
    [lia|lia|].
  simpl. destruct (Z.gtb_spec (page_num p) c); [done|lia].
Qed.

Lemma page_beyond_last_rejected_witness :
  query HEAD (backend_total 41 ["doc"])
    [("query", "x"); ("page", "4")]
  = Raise (ClientError "Page number 4 is too high").
Proof.
  apply (page_beyond_last_rejected HEAD (backend_total 41 ["doc"])
           [("query", "x"); ("page", "4")]
           {| text := Some "x"; page_size := 20; page_num := 4;
              unique := false |}
           "x" {| total := 41; items := ["doc"] |});
    (reflexivity || (simpl; lia) || (vm_compute; reflexivity)).
Defined.

(** ** Backend failures *)

(** C8: when the call of line 43 raises the connection error, the
    controller raises [ServerError "Search failed to connect"]: no page is
    returned and no [ClientError] is raised. *)
Theorem connection_error_is_server_error (side : merge_side) (b : backend)
    (a : args) (p : params) (q : string) :
  parse side a = Ok p ->
  text p = Some q -> 1 <= page_size p -> 1 <= page_num p ->
  b q ((page_num p - 1) * page_size p) (page_size p) (unique p)
    = Raise ESConnectionError ->
  query side b a = Raise (ServerError "Search failed to connect") /\
  (forall r, query side b a <> Ok r) /\
  (forall m, query side b a <> Raise (ClientError m)).
Proof.
  intros Hparse Hq Hps Hpn Hb.
  assert (query side b a = Raise (ServerError "Search failed to connect")) as E.
  { rewrite (query_parsed _ _ _ _ Hparse). unfold search. rewrite Hq.
    assert (range_error (page_size p) (page_num p) = None) as ->
      by (apply range_error_None; lia).
    by rewrite Hb. }
  rewrite E. repeat split; intros; discriminate.
Qed.

Lemma connection_error_is_server_error_witness :
  query Incoming backend_down [("query", "x"); ("unique", "True")]
    = Raise (ServerError "Search failed to connect").
Proof.
  apply (connection_error_is_server_error Incoming backend_down
           [("query", "x"); ("unique", "True")]
           {| text := Some "x"; page_size := 20; page_num := 1;
              unique := true |} "x");
    (reflexivity || (simpl; lia)).
Defined.

(** ** Reading the parameters *)

(** The request [size=abc] has no [query] parameter, and it is answered
    with the message of the [except] clause of line 28, not with
    ["Query required"]: [int("abc")] raises inside the [try] block, which
    comes before the test of line 30. *)
Lemma missing_query_bad_size :
  args_lookup [("size", "abc")] "query" = None /\
  query HEAD backend_down [("size", "abc")]
    = Raise (ClientError "Input paramaters are of the wrong type") /\
  query Incoming backend_down [("size", "abc")]
    = Raise (ClientError "Input paramaters are of the wrong type") /\
  query HEAD backend_down [("size", "abc")]
    <> Raise (ClientError "Query required").
Proof. repeat split. discriminate. Qed.

(** C2, amended: a request without [query] parameter whose [size] and
    [page] are absent or integer literals is answered with
    [ClientError "Query required"], whatever the integers are and whatever
    the backend would do.  On the [Incoming] side of the merge this is
    stated for requests that carry a [unique] parameter. *)
Theorem missing_query_required (side : merge_side) (b : backend) (a : args)
    (ps pn : Z) :
  args_lookup a "query" = None ->
  Py.int (get a "size" (Py.Int 20)) = Ok ps ->
  Py.int (get a "page" (Py.Int 1)) = Ok pn ->
  side = HEAD \/ is_Some (args_lookup a "unique") ->
  query side b a = Raise (ClientError "Query required").
Proof.
  intros Hq Hs Hp Hu.
  assert (exists u, unique_is_true side (get a "unique" (Py.Bool false)) = Ok u)
    as [u Hpu].
  { destruct Hu as [->|[v Hv]].
    - apply unique_is_true_HEAD_total.
    - unfold get. rewrite Hv, unique_is_true_Str. eauto. }
  rewrite (query_parsed _ _ _ _ (parse_Ok side a ps pn u Hs Hp Hpu)).
  unfold search. simpl. by rewrite Hq.
Qed.

Lemma missing_query_required_witness :
  query HEAD backend_down [("size", "0"); ("page", "-3")]
    = Raise (ClientError "Query required").
Proof.
  apply (missing_query_required HEAD backend_down
           [("size", "0"); ("page", "-3")] 0 (-3));
    [reflexivity | reflexivity | reflexivity | left; reflexivity].
Defined.

(** C3, at the input where the code departs from it: the request [query=x]
    has no [unique] parameter, so line 18 binds [unique] to the default
    [False].  The [Incoming] side of the merge (line 22) calls [.lower()]
    on it, which raises [AttributeError]; the handler of line 27 catches
    [ValueError] only, and the error leaves the controller unhandled.  An
    already-boolean [True] fares the same.  The [HEAD] side (line 20)
    converts with [str] first and answers [False] and [True]. *)
Theorem absent_unique_unhandled_on_Incoming :
  (forall b : backend,
     query Incoming b [("query", "x")]
     = Raise (AttributeError "'bool' object has no attribute 'lower'")) /\
  unique_is_true Incoming (Py.Bool true)
    = Raise (AttributeError "'bool' object has no attribute 'lower'") /\
  unique_is_true HEAD (Py.Bool false) = Ok false /\
  unique_is_true HEAD (Py.Bool true) = Ok true.
Proof. repeat split. Qed.

(** C6, what holds and where the code departs from it.  On the text of a
    [unique] parameter both sides of the merge give [true] exactly when the
    lower-cased text is ["true"]; the examples of the design document
    follow.  For an absent parameter line 20 gives [false], but line 22
    raises [AttributeError] and no flag is computed. *)
Theorem unique_flag_of_text_and_absent :
  (forall (side : merge_side) (s : string),
     unique_is_true side (Py.Str s)
     = Ok (bool_decide (Py.lower s = "true"))) /\
  (forall side : merge_side,
     unique_is_true side (Py.Str "true") = Ok true /\
     unique_is_true side (Py.Str "TRUE") = Ok true /\
     unique_is_true side (Py.Str "True") = Ok true /\
     unique_is_true side (Py.Str "false") = Ok false /\
     unique_is_true side (Py.Str "") = Ok false) /\
  parse HEAD [("query", "x")]
    = Ok {| text := Some "x"; page_size := 20; page_num := 1;
            unique := false |} /\
  parse Incoming [("query", "x")]
    = Raise (AttributeError "'bool' object has no attribute 'lower'").
Proof.
  split; [|split; [|split]]; try reflexivity.
  - intros side s. rewrite unique_is_true_Str. f_equal.
    destruct (String.eqb_spec (Py.lower s) "true") as [E|E].
    + by rewrite bool_decide_eq_true_2.
    + by rewrite bool_decide_eq_false_2.
  - intros side. by rewrite !unique_is_true_Str.
Qed.

(** * Properties of the plugin registry *)

Import Plugins.

(** ** What one call of [register] does *)

(** A call that raises leaves the two globals as they were. *)
Lemma register_Raise_unchanged {A} (func : A -> result object) (a : A)
    (s : registry) (e : exn) :
  outcome (register func a) s = Raise e -> after (register func a) s = s.
Proof.
  unfold outcome, after, register, bindM, lift, raise, ret.
  destruct (func a) as [plugin|e0]; simpl; [|done].
  destruct (isinstance_PluginBase plugin); simpl; [|done].
  destruct (blueprint plugin) as [[bp|c]|e1]; simpl; [|done|done].
  destruct (user_pref plugin); simpl; discriminate.
Qed.

(** A call that returns has appended the plugin it returns, which passed
    both checks, and has stored its preferences if it has any. *)
Lemma register_Ok_inv {A} (func : A -> result object) (a : A)
    (s : registry) (plugin : object) :
  outcome (register func a) s = Ok plugin ->
  func a = Ok plugin /\ validated plugin = true /\
  after (register func a) s =
    {| PLUGINS := PLUGINS s ++ [plugin];
       USER_PREF := match user_pref plugin with
                    | Some pref => <[name plugin := pref]> (USER_PREF s)
                    | None => USER_PREF s
                    end |}.
Proof.
  unfold outcome, after, register, bindM, lift, raise, ret, validated.
  destruct (func a) as [p|e0]; simpl; [|done].
  destruct (isinstance_PluginBase p) eqn:Hi; simpl; [|done].
  destruct (blueprint p) as [[bp|c]|e1] eqn:Hb; simpl; [|done|done].
  destruct (user_pref p) eqn:Hu; simpl; intros [= <-];
    rewrite Hi, Hb, Hu; done.
Qed.

Lemma outcome_cases {A} (m : M A) (s : registry) :
  (exists a, outcome m s = Ok a) \/ (exists e, outcome m s = Raise e).
Proof. destruct (outcome m s); eauto. Qed.

(** One step keeps the invariant. *)
Lemma register_preserves_inv {A} (func : A -> result object) (a : A)
    (s : registry) :
  registry_inv s -> registry_inv (after (register func a) s).
Proof.
  intros [Hval Hkeys].
  destruct (outcome_cases (register func a) s) as [[p Hok]|[e Hr]].
  - apply register_Ok_inv in Hok as (_ & Hv & ->). split; simpl.
    + apply Forall_app. split; [done|]. by constructor.
    + intros key Hkey. destruct (decide (name p = key)) as [<-|Hne].
      * exists p. split; [|done]. set_solver.
      * assert (is_Some (USER_PREF s !! key)) as Hs.
        { destruct (user_pref p); [|done].
          by rewrite lookup_insert_ne in Hkey. }
        destruct (Hkeys key Hs) as (p' & Hin & Hn).
        exists p'. split; [|done]. set_solver.
  - by rewrite (register_Raise_unchanged _ _ _ _ Hr).
Qed.

(** ** Rejected candidates *)

(** C4: a factory whose result is not a [PluginBase] instance makes
    [register] raise the [TypeError] of line 74, whatever its [blueprint()]
    would give; a [PluginBase] instance whose [blueprint()] returns
    something that is no [Blueprint] makes it raise the [TypeError] of
    line 78, whose message is another one.  In both cases [PLUGINS] and
    [USER_PREF] are what they were before the call. *)
Theorem register_rejects_without_mutation {A} (func : A -> result object)
    (a : A) (s : registry) (plugin : object) :
  func a = Ok plugin ->
  (isinstance_PluginBase plugin = false ->
     register func a s = (Raise (TypeError (wrong_type_message plugin)), s)) /\
  (isinstance_PluginBase plugin = true ->
     forall c, blueprint plugin = Ok (NotABlueprint c) ->
     register func a s = (Raise (TypeError no_blueprint_message), s)) /\
  TypeError (wrong_type_message plugin) <> TypeError no_blueprint_message.
Proof.
  intros Hf. unfold register, bindM, lift, raise. rewrite Hf.
  split; [|split].
  - by intros ->.
  - intros -> c ->. done.
  - unfold wrong_type_message, no_blueprint_message. simpl. discriminate.
Qed.

Lemma register_rejects_without_mutation_witness :
  let s := after (register (start_plugin (TestPlugin None "hello")) tt)
             empty_registry in
  register (start_plugin a_dict) tt s
    = (Raise (TypeError "Cannot register plugin: wrong type <class 'dict'>"), s) /\
  register (start_plugin (NoRoutesPlugin "broken")) tt s
    = (Raise (TypeError "Cannot register plugin, must return a blueprint"), s).
Proof.
  intros s. split.
  - apply (register_rejects_without_mutation (start_plugin a_dict) tt s
             a_dict eq_refl). reflexivity.
  - destruct (register_rejects_without_mutation
                (start_plugin (NoRoutesPlugin "broken")) tt s
                (NoRoutesPlugin "broken") eq_refl) as (_ & H & _).
    apply (H eq_refl "NoneType" eq_refl).
Defined.

(** ** The invariant *)

(** C5: in every registry reached from the empty one by calls of
    [register], returning or raising, each entry of [PLUGINS] is a
    [PluginBase] instance whose [blueprint()] returns a [Blueprint], and
    each key of [USER_PREF] is the name of an entry of [PLUGINS]. *)
Theorem reachable_registry_inv (s : registry) :
  reachable s -> registry_inv s.
Proof.
  induction 1 as [|A func a s _ IH].
  - split; [constructor|]. intros key [v Hv]. simpl in Hv.
    by rewrite lookup_empty in Hv.
  - by apply register_preserves_inv.
Qed.

Lemma reachable_registry_inv_witness :
  registry_inv
    (after (register (start_plugin (NoRoutesPlugin "broken")) tt)
       (after (register (start_plugin
                           (TestPlugin (Some {[ "depth" := "int" ]}) "hello"))
                 tt)
          empty_registry)).
Proof.
  apply reachable_registry_inv.
  apply reachable_register. apply reachable_register. apply reachable_empty.
Defined.

(** ** Preferences *)

(** C9: after a call of [register] that returns [plugin], [USER_PREF]
    holds the preferences of [plugin] under its name if it has any; if it
    has none and the name had no entry before, it has none after. *)
Theorem register_preferences {A} (func : A -> result object) (a : A)
    (s : registry) (plugin : object) :
  outcome (register func a) s = Ok plugin ->
  (forall pref, user_pref plugin = Some pref ->
     USER_PREF (after (register func a) s) !! name plugin = Some pref) /\
  (user_pref plugin = None ->
     USER_PREF s !! name plugin = None ->
     USER_PREF (after (register func a) s) !! name plugin = None).
Proof.
  intros Hok. apply register_Ok_inv in Hok as (_ & _ & ->). simpl. split.
  - intros pref ->. apply lookup_insert_eq.
  - by intros ->.
Qed.

Lemma register_preferences_witness :
  USER_PREF (after (register (start_plugin
                                (TestPlugin (Some {[ "depth" := "int" ]}) "hello"))
                      tt) empty_registry) !! "hello"
    = Some {[ "depth" := "int" ]} /\
  USER_PREF (after (register (start_plugin (TestPlugin None "hello")) tt)
               empty_registry) !! "hello"
    = None.
Proof.
  split.
  - apply (register_preferences
             (start_plugin (TestPlugin (Some {[ "depth" := "int" ]}) "hello"))
             tt empty_registry
             (TestPlugin (Some {[ "depth" := "int" ]}) "hello") eq_refl).
    reflexivity.
  - apply (register_preferences (start_plugin (TestPlugin None "hello"))
             tt empty_registry (TestPlugin None "hello") eq_refl);
      reflexivity.
Defined.

(** C10: two calls of [register] that return plugins of one name, both
    with preferences, append both plugins to [PLUGINS] in the order of the
    calls, and leave under the shared name the preferences of the second:
    [USER_PREF] is what storing those alone would have made it. *)
Theorem same_name_later_preferences_win {A B}
    (func1 : A -> result object) (a1 : A)
    (func2 : B -> result object) (a2 : B)
    (s : registry) (p1 p2 : object) (pref1 pref2 : preferences) :
  outcome (register func1 a1) s = Ok p1 ->
  outcome (register func2 a2) (after (register func1 a1) s) = Ok p2 ->
  name p1 = name p2 ->
  user_pref p1 = Some pref1 -> user_pref p2 = Some pref2 ->
  let s2 := after (register func2 a2) (after (register func1 a1) s) in
  PLUGINS s2 = (PLUGINS s ++ [p1; p2])%list /\
  List.length (PLUGINS s2) = (List.length (PLUGINS s) + 2)%nat /\
  USER_PREF s2 !! name p1 = Some pref2 /\
  USER_PREF s2 = <[name p2 := pref2]> (USER_PREF s).
Proof.
  intros H1 H2 Hn Hu1 Hu2 s2. subst s2.
  apply register_Ok_inv in H2 as (_ & _ & ->).
  apply register_Ok_inv in H1 as (_ & _ & ->).
  simpl. rewrite Hu1, Hu2, Hn.
  split; [by rewrite <- app_assoc|].
  split; [rewrite !length_app; simpl; lia|].
  split; [apply lookup_insert_eq|apply insert_insert_eq].
Qed.

Lemma same_name_later_preferences_win_witness :
  let first := TestPlugin (Some {[ "depth" := "int" ]}) "hello" in
  let second := TestPlugin (Some {[ "colour" := "str" ]}) "hello" in
  let s2 := after (register (start_plugin second) tt)
              (after (register (start_plugin first) tt) empty_registry) in
  first <> second /\
  PLUGINS s2 = [first; second] /\
  USER_PREF s2 = {[ "hello" := {[ "colour" := "str" ]} ]}.
Proof.
  intros first second s2.
  destruct (same_name_later_preferences_win
              (start_plugin first) tt (start_plugin second) tt
              empty_registry first second
              {[ "depth" := "int" ]} {[ "colour" := "str" ]}
              eq_refl eq_refl eq_refl eq_refl eq_refl)
    as (Hp & _ & _ & Hu).
  split; [|split].
  - intros E.
    apply (f_equal (fun o => pref ← user_pref o; pref !! "depth")) in E.
    vm_compute in E. discriminate.
  - exact Hp.
  - exact Hu.
Defined.

(** * Further properties of the controller *)

(** ** Range checks *)

(** The checks of lines 34 to 39: a page size below 1 is reported with the
    size in the message, whatever the page number is; with a valid size, a
    page number below 1 is reported with the number in the message. *)
Theorem range_errors_reported (side : merge_side) (b : backend) (a : args)
    (p : params) (q : string) :
  parse side a = Ok p -> text p = Some q ->
  (page_size p < 1 ->
     query side b a =
       Raise (ClientError
                ("Invalid page size " ++ pretty (page_size p) ++ " provided"))) /\
  (1 <= page_size p -> page_num p < 1 ->
     query side b a =
       Raise (ClientError ("Invalid page number " ++ pretty (page_num p)))).
Proof.
  intros Hparse Hq. rewrite (query_parsed _ _ _ _ Hparse).
  unfold search, range_error. rewrite Hq. split.
  - intros Hs. destruct (Z.ltb_spec (page_size p) 1); [done|lia].
  - intros Hs Hn. destruct (Z.ltb_spec (page_size p) 1); [lia|].
    destruct (Z.ltb_spec (page_num p) 1); [done|lia].
Qed.

Lemma range_errors_reported_witness :
  query HEAD backend_down [("query", "x"); ("size", "0"); ("page", "-1")]
    = Raise (ClientError "Invalid page size 0 provided") /\
  query HEAD backend_down [("query", "x"); ("size", "5"); ("page", "-1")]
    = Raise (ClientError "Invalid page number -1").
Proof.
  split.
  - apply (range_errors_reported HEAD backend_down
             [("query", "x"); ("size", "0"); ("page", "-1")]
             {| text := Some "x"; page_size := 0; page_num := -1;
                unique := false |} "x" eq_refl eq_refl).
    simpl; lia.
  - apply (range_errors_reported HEAD backend_down
             [("query", "x"); ("size", "5"); ("page", "-1")]
             {| text := Some "x"; page_size := 5; page_num := -1;
                unique := false |} "x" eq_refl eq_refl);
      simpl; lia.
Defined.

(** ** Parameters of the wrong type *)

(** A [size] or [page] parameter that is present, is ASCII text and is no
    integer literal is answered with the [ClientError] of line 28, on both
    sides of the merge, whether or not there is a [query] or a [unique]
    parameter. *)
Theorem non_integer_size_or_page (side : merge_side) (b : backend) (a : args)
    (v : string) :
  Py.is_ascii v = true ->
  Py.int_of_string v = None ->
  args_lookup a "size" = Some v \/ args_lookup a "page" = Some v ->
  query side b a =
    Raise (ClientError "Input paramaters are of the wrong type").
Proof.
  intros _ Hv Hin. unfold query, parse.
  destruct (int_get_cases a "size" 20) as [[ps Hs]|[m Hs]]; rewrite Hs;
    simpl; [|done].
  destruct Hin as [Hin|Hin].
  - unfold get in Hs. rewrite Hin in Hs. simpl in Hs. by rewrite Hv in Hs.
  - unfold get. rewrite Hin. simpl. by rewrite Hv.
Qed.

Lemma non_integer_size_or_page_witness :
  query Incoming backend_down [("page", "1.5")]
    = Raise (ClientError "Input paramaters are of the wrong type").
Proof.
  apply (non_integer_size_or_page Incoming backend_down [("page", "1.5")]
           "1.5"); [reflexivity | reflexivity | right; reflexivity].
Defined.

(** ** Pages that are returned *)

(** The exact page bound, in terms of the offset: the page number is
    within [ceil(total / page_size)] exactly when the offset of the page
    lies before the end of the result set. *)
Lemma page_within_bound_iff (pn ps t : Z) :
  0 < ps -> pn <= Py.ceil_div t ps <-> (pn - 1) * ps < t.
Proof.
  intros Hps. pose proof (ceil_div_least t ps (pn - 1) Hps) as H.
  split; intros; lia.
Qed.

(** Whenever the controller returns a page, the request had a query text
    and valid paging, the page is the one the backend gave for the offset
    [(page_num - 1) * page_size], and that offset is non-negative; when
    the reported total is a count below [2^53], the offset lies before it,
    so that no page is returned for an empty result set or for an offset
    at or past the end. *)
Theorem returned_page_is_backend_page (side : merge_side) (b : backend)
    (a : args) (r : results) :
  query side b a = Ok r ->
  exists (p : params) (q : string),
    parse side a = Ok p /\ text p = Some q /\
    1 <= page_size p /\ 1 <= page_num p /\
    b q ((page_num p - 1) * page_size p) (page_size p) (unique p) = Ok r /\
    0 <= (page_num p - 1) * page_size p /\
    (0 <= total r < 2 ^ 53 -> (page_num p - 1) * page_size p < total r).
Proof.
  unfold query. destruct (parse side a) as [p|e] eqn:Hparse; [|done].
  simpl. unfold search.
  destruct (text p) as [q|] eqn:Hq; [|done].
  destruct (range_error (page_size p) (page_num p)) eqn:He; [done|].
  apply range_error_None in He as [Hps Hpn].
  destruct (b q ((page_num p - 1) * page_size p) (page_size p) (unique p))
    as [r'|[]] eqn:Hb; simpl; try done.
  destruct (Py.ceil_truediv (total r') (page_size p)) as [c|e] eqn:Hc;
    simpl; [|done].
  destruct (Z.gtb_spec (page_num p) c) as [Hgt|Hle]; [done|].
  intros [= ->]. exists p, q. repeat split; try done; [nia|].
  intros Ht.
  destruct (ceil_truediv_le_exact (total r) (page_size p)) as (c' & Hc' & Hle');
    [lia|lia|].
  rewrite Hc in Hc'. injection Hc' as <-.
  apply page_within_bound_iff; lia.
Qed.

Lemma returned_page_is_backend_page_witness :
  exists (p : params) (q : string),
    parse HEAD [("query", "x"); ("page", "3")] = Ok p /\ text p = Some q /\
    1 <= page_size p /\ 1 <= page_num p /\
    backend_total 41 ["doc"] q ((page_num p - 1) * page_size p)
      (page_size p) (unique p) = Ok {| total := 41; items := ["doc"] |} /\
    0 <= (page_num p - 1) * page_size p /\
    (0 <= 41 < 2 ^ 53 -> (page_num p - 1) * page_size p < 41).
Proof.
  apply (returned_page_is_backend_page HEAD (backend_total 41 ["doc"])
           [("query", "x"); ("page", "3")]
           {| total := 41; items := ["doc"] |}).
  reflexivity.
Defined.

(** A request with query text and valid paging whose offset lies before
    the total reported by the backend gets the backend's page back,
    unchanged, when the total and the page size are below [2^53]. *)
Theorem page_before_end_returned (side : merge_side) (b : backend)
    (a : args) (p : params) (q : string) (r : results) :
  parse side a = Ok p -> text p = Some q ->
  1 <= page_size p < 2 ^ 53 -> 1 <= page_num p ->
  b q ((page_num p - 1) * page_size p) (page_size p) (unique p) = Ok r ->
  (page_num p - 1) * page_size p < total r < 2 ^ 53 ->
  query side b a = Ok r.
Proof.
  intros Hparse Hq Hps Hpn Hb Hlt.
  rewrite (query_parsed _ _ _ _ Hparse).
  rewrite (search_bound_check b p q r) by (done || lia).
  rewrite ceil_truediv_exact by nia. simpl.
  assert (page_num p <= Py.ceil_div (total r) (page_size p))
    by (apply page_within_bound_iff; lia).
  destruct (Z.gtb_spec (page_num p) (Py.ceil_div (total r) (page_size p)));
    [lia|done].
Qed.

Lemma page_before_end_returned_witness :
  query Incoming (backend_total 41 ["doc"])
    [("query", "x"); ("page", "3"); ("unique", "no")]
  = Ok {| total := 41; items := ["doc"] |}.
Proof.
  apply (page_before_end_returned Incoming (backend_total 41 ["doc"])
           [("query", "x"); ("page", "3"); ("unique", "no")]
           {| text := Some "x"; page_size := 20; page_num := 3;
              unique := false |} "x" {| total := 41; items := ["doc"] |});
    (reflexivity || (simpl; lia)).
Defined.

(** ** Backend failures other than the connection error *)

(** The [except] clause of line 44 names the connection error only: any
    other exception of the backend call, the query error of
    [pydat/core/elastic/exceptions.py] among them, leaves the controller
    as it is. *)
Theorem other_backend_error_propagates (side : merge_side) (b : backend)
    (a : args) (p : params) (q : string) (e : exn) :
  parse side a = Ok p -> text p = Some q ->
  1 <= page_size p -> 1 <= page_num p ->
  b q ((page_num p - 1) * page_size p) (page_size p) (unique p) = Raise e ->
  e <> ESConnectionError ->
  query side b a = Raise e.
Proof.
  intros Hparse Hq Hps Hpn Hb Hne.
  rewrite (query_parsed _ _ _ _ Hparse). unfold search. rewrite Hq.
  assert (range_error (page_size p) (page_num p) = None) as ->
    by (apply range_error_None; lia).
  rewrite Hb. destruct e; done.
Qed.

Lemma other_backend_error_propagates_witness :
  query HEAD (fun _ _ _ _ => Raise ESQueryError) [("query", "x:")]
    = Raise ESQueryError.
Proof.
  apply (other_backend_error_propagates HEAD
           (fun _ _ _ _ => Raise ESQueryError) [("query", "x:")]
           {| text := Some "x:"; page_size := 20; page_num := 1;
              unique := false |} "x:" ESQueryError);
    (reflexivity || (simpl; lia) || discriminate).
Defined.

(** ** When the backend is consulted *)

(** A request that fails before line 43 is answered without the backend:
    if reading the parameters cannot give a query text with a page size and
    a page number of at least 1, the answer is the same for every backend
    (for requests whose [size] and [page] are ASCII text). *)
Theorem invalid_request_ignores_backend (side : merge_side) (a : args) :
  ascii_paging a = true ->
  (forall p, parse side a = Ok p ->
     text p = None \/ page_size p < 1 \/ page_num p < 1) ->
  forall b1 b2 : backend, query side b1 a = query side b2 a.
Proof.
  intros _ Hinv b1 b2. unfold query.
  destruct (parse side a) as [p|e] eqn:Hparse; [|done].
  simpl. unfold search.
  destruct (text p) as [q|] eqn:Hq; [|done].
  destruct (range_error (page_size p) (page_num p)) eqn:He; [done|].
  apply range_error_None in He.
  destruct (Hinv p eq_refl) as [?|[?|?]]; [congruence|lia|lia].
Qed.

Lemma invalid_request_ignores_backend_witness :
  query HEAD backend_down [("query", "x"); ("page", "0")]
    = query HEAD (backend_total 7 []) [("query", "x"); ("page", "0")].
Proof.
  apply (invalid_request_ignores_backend HEAD
           [("query", "x"); ("page", "0")]); [reflexivity|].
  intros p Hp. vm_compute in Hp. injection Hp as <-. simpl. lia.
Defined.

(** The controller asks the backend only for a non-negative offset and a
    page size of at least 1: two backends that agree on all such calls get
    the same answer for every request. *)
Theorem backend_called_with_valid_paging (side : merge_side) (a : args)
    (b1 b2 : backend) :
  (forall q skip size u, 0 <= skip -> 1 <= size ->
     b1 q skip size u = b2 q skip size u) ->
  query side b1 a = query side b2 a.
Proof.
  intros Hagree. unfold query.
  destruct (parse side a) as [p|e]; [|done].
  simpl. unfold search.
  destruct (text p) as [q|]; [|done].
  destruct (range_error (page_size p) (page_num p)) eqn:He; [done|].
  apply range_error_None in He as [Hps Hpn].
  rewrite (Hagree q ((page_num p - 1) * page_size p) (page_size p) (unique p));
    [done|nia|lia].
Qed.

Lemma backend_called_with_valid_paging_witness :
  query HEAD
    (fun q skip size u =>
       if (skip <? 0) || (size <? 1) then Raise ESQueryError
       else backend_total 41 [] q skip size u)
    [("query", "x"); ("page", "2")]
  = query HEAD (backend_total 41 []) [("query", "x"); ("page", "2")].
Proof.
  apply (backend_called_with_valid_paging HEAD
           [("query", "x"); ("page", "2")]).
  intros q skip size u Hskip Hsize.
  destruct (Z.ltb_spec skip 0); [lia|].
  destruct (Z.ltb_spec size 1); [lia|]. reflexivity.
Defined.

(** The defaults of lines 16 to 18: a request that carries a [query]
    parameter only asks the backend for offset 0, size 20 and [unique]
    false, and gets that page back when the backend reports a count from 1
    to below [2^53] (on the [HEAD] side of the merge, where a missing
    [unique] is accepted). *)
Theorem defaults_first_page_of_20 (b : backend) (q : string) (r : results) :
  b q 0 20 false = Ok r -> 1 <= total r < 2 ^ 53 ->
  query HEAD b [("query", q)] = Ok r.
Proof.
  intros Hb Ht.
  assert (parse HEAD [("query", q)]
          = Ok {| text := Some q; page_size := 20; page_num := 1;
                  unique := false |}) as Hparse by done.
  rewrite (query_parsed _ _ _ _ Hparse).
  apply first_page_of_nonempty_result with (q := q); simpl; (done || lia).
Qed.

Lemma defaults_first_page_of_20_witness :
  query HEAD
    (fun q skip size u =>
       if (skip =? 0) && (size =? 20) && negb u
       then Ok {| total := 3; items := ["a"; "b"; "c"] |}
       else Raise ESQueryError)
    [("query", "example.com")]
  = Ok {| total := 3; items := ["a"; "b"; "c"] |}.
Proof.
  apply defaults_first_page_of_20; [reflexivity | simpl; lia].
Defined.

(** ** The exceptions that leave the controller *)

(** An exception that leaves [query], for a request whose [size] and
    [page] are ASCII text, is a [ClientError], or the [ServerError] of
    line 45, or an exception other than the connection error that the
    backend raised, or the [OverflowError] of the division of line 47 when
    the backend reports a total of [2^53] or more in absolute value, or,
    on the [Incoming] side of the merge and for a request without [unique]
    parameter, the [AttributeError] of line 22.  In particular no
    [ValueError] of the parsing gets out. *)
Theorem query_exceptions (side : merge_side) (b : backend) (a : args)
    (e : exn) :
  ascii_paging a = true ->
  query side b a = Raise e ->
  (exists m, e = ClientError m) \/
  e = ServerError "Search failed to connect" \/
  (e <> ESConnectionError /\
   exists q skip size u, b q skip size u = Raise e) \/
  (e = OverflowError "integer division result too large for a float" /\
   exists q skip size u r,
     b q skip size u = Ok r /\ 2 ^ 53 <= Z.abs (total r)) \/
  (side = Incoming /\ args_lookup a "unique" = None /\
   e = AttributeError "'bool' object has no attribute 'lower'").
Proof.
  intros _. unfold query.
  destruct (parse side a) as [p|e0] eqn:Hparse; simpl.
  - unfold search. destruct (text p) as [q|]; [|intros [= <-]; eauto].
    destruct (range_error (page_size p) (page_num p)) eqn:He;
      [intros [= <-]; eauto|].
    apply range_error_None in He as [Hps Hpn].
    destruct (b q ((page_num p - 1) * page_size p) (page_size p) (unique p))
      as [r|e1] eqn:Hb; simpl.
    + destruct (ceil_truediv_cases (total r) (page_size p)) as [[c Hc]|Hc];
        [lia| |]; rewrite Hc; simpl.
      * destruct (_ >? _); [intros [= <-]; eauto|done].
      * intros [= <-]. right. right. right. left. split; [done|].
        exists q. eexists _, _, _, r. split; [done|].
        destruct (Z_lt_ge_dec (Z.abs (total r)) (2 ^ 53)) as [Hsmall|Hbig];
          [|lia].
        destruct (ceil_truediv_no_overflow (total r) (page_size p))
          as [c Hc']; [done|done|].
        rewrite Hc in Hc'. discriminate.
    + destruct e1; simpl; intros [= <-]; eauto;
        right; right; left; (split; [done|eauto]).
  - intros [= ->]. revert Hparse. unfold parse.
    destruct (int_get_cases a "size" 20) as [[ps ->]|[m ->]]; simpl;
      [|intros [= <-]; eauto].
    destruct (int_get_cases a "page" 1) as [[pn ->]|[m ->]]; simpl;
      [|intros [= <-]; eauto].
    unfold get. destruct (args_lookup a "unique") as [v|] eqn:Hu.
    + rewrite unique_is_true_Str. simpl. done.
    + destruct side; simpl; [done|]. intros [= <-]. eauto 10.
Qed.

Lemma query_exceptions_witness :
  let e := OverflowError "integer division result too large for a float" in
  let b := backend_total (2 ^ 1100) [] in
  (exists m, e = ClientError m) \/
  e = ServerError "Search failed to connect" \/
  (e <> ESConnectionError /\
   exists q skip size u, b q skip size u = Raise e) \/
  (e = OverflowError "integer division result too large for a float" /\
   exists q skip size u r,
     b q skip size u = Ok r /\ 2 ^ 53 <= Z.abs (total r)) \/
  (HEAD = Incoming /\ args_lookup [("query", "x")] "unique" = None /\
   e = AttributeError "'bool' object has no attribute 'lower'").
Proof.
  intros e b.
  apply (query_exceptions HEAD b [("query", "x")] e).
  - reflexivity.
  - vm_compute. reflexivity.
Defined.

(** * Further properties of the plugin registry *)

Import Discovery.

(** ** Failures that come before the append *)

(** An exception raised by the factory, or by [blueprint()] of the
    [PluginBase] instance it returned, leaves [register] as it is, and
    [PLUGINS] and [USER_PREF] are what they were: both come before the
    append of line 79. *)
Theorem register_propagates_without_mutation {A}
    (func : A -> result object) (a : A) (s : registry) (e : exn) :
  (func a = Raise e -> register func a s = (Raise e, s)) /\
  (forall plugin, func a = Ok plugin ->
     isinstance_PluginBase plugin = true -> blueprint plugin = Raise e ->
     register func a s = (Raise e, s)).
Proof.
  unfold register, bindM, lift. split.
  - by intros ->.
  - intros plugin -> -> ->. done.
Qed.

(** An instance of any class that keeps the [blueprint()] of [PluginBase],
    whatever name and preferences it sets, cannot be registered: the
    [NotImplementedError] of [PluginBase.blueprint] leaves [register], as
    its docstring announces, and nothing is stored. *)
Theorem blueprint_not_overridden_not_registered {A}
    (func : A -> result object) (a : A) (s : registry) (plugin : object)
    (module_ : string) :
  func a = Ok plugin ->
  isinstance_PluginBase plugin = true ->
  blueprint plugin = blueprint (PluginBase module_) ->
  register func a s
    = (Raise (NotImplementedError "Plugin must have blueprint"), s).
Proof.
  intros Hf Hi Hb. unfold register, bindM, lift.
  rewrite Hf, Hi, Hb. done.
Qed.

Lemma blueprint_not_overridden_not_registered_witness :
  let plugin :=
    {| class_ := "pydat.plugins.passive.Passive";
       isinstance_PluginBase := true;
       name := "pdns";
       user_pref := Some {[ "limit" := "int" ]};
       blueprint := Raise (NotImplementedError "Plugin must have blueprint") |} in
  let s := after (register (start_plugin (TestPlugin None "hello")) tt)
             empty_registry in
  register (start_plugin plugin) tt s
  = (Raise (NotImplementedError "Plugin must have blueprint"), s).
Proof.
  intros plugin s.
  apply (blueprint_not_overridden_not_registered (start_plugin plugin) tt s
           plugin "pydat.plugins.passive");
    reflexivity.
Defined.

(** ** What a call leaves in place *)

(** [register] only adds: the old [PLUGINS] is a prefix of the new one,
    which is longer by one plugin at most, and by the returned plugin when
    the call returns; every key of [USER_PREF] is still a key; and the
    entry of every key other than the name of the returned plugin is what
    it was. *)
Theorem register_only_adds {A} (func : A -> result object) (a : A)
    (s : registry) :
  PLUGINS s `prefix_of` PLUGINS (after (register func a) s) /\
  (List.length (PLUGINS (after (register func a) s))
     <= List.length (PLUGINS s) + 1)%nat /\
  (forall p, outcome (register func a) s = Ok p ->
     PLUGINS (after (register func a) s) = (PLUGINS s ++ [p])%list) /\
  (forall key : string, is_Some (USER_PREF s !! key) ->
     is_Some (USER_PREF (after (register func a) s) !! key)) /\
  (forall key : string,
     (forall p, outcome (register func a) s = Ok p -> name p <> key) ->
     USER_PREF (after (register func a) s) !! key = USER_PREF s !! key).
Proof.
  destruct (outcome (register func a) s) as [p|e] eqn:Hout.
  - apply register_Ok_inv in Hout as (_ & _ & ->). simpl.
    split; [by apply prefix_app_r|].
    split; [rewrite length_app; simpl; lia|].
    split; [by intros p' [= <-]|].
    split.
    + intros key Hkey. destruct (user_pref p); [|done].
      destruct (decide (name p = key)) as [->|Hne].
      * rewrite lookup_insert_eq. eauto.
      * by rewrite lookup_insert_ne.
    + intros key Hne. destruct (user_pref p); [|done].
      rewrite lookup_insert_ne; [done|]. by apply Hne.
  - rewrite (register_Raise_unchanged _ _ _ _ Hout).
    repeat split; try done; lia.
Qed.

(** ** How the two globals stay in step *)

Lemma prefs_of_snoc (plugins : list object) (p : object) :
  prefs_of (plugins ++ [p]) = store_pref (prefs_of plugins) p.
Proof. unfold prefs_of. by rewrite foldl_app. Qed.

(** One call of [register] keeps [USER_PREF] in step with [PLUGINS]. *)
Lemma register_keeps_prefs_of {A} (func : A -> result object) (a : A)
    (s : registry) :
  USER_PREF s = prefs_of (PLUGINS s) ->
  USER_PREF (after (register func a) s)
    = prefs_of (PLUGINS (after (register func a) s)).
Proof.
  intros IH.
  destruct (outcome_cases (register func a) s) as [[p Hok]|[e Hr]].
  - apply register_Ok_inv in Hok as (_ & _ & ->). simpl.
    rewrite prefs_of_snoc, <- IH. done.
  - by rewrite (register_Raise_unchanged _ _ _ _ Hr).
Qed.

Lemma reachable_prefs_of (s : registry) :
  reachable s -> USER_PREF s = prefs_of (PLUGINS s).
Proof.
  induction 1 as [|A func a s _ IH]; [done|].
  by apply register_keeps_prefs_of.
Qed.

(** In every registry reached by calls of [register], [USER_PREF] is a
    function of [PLUGINS]: it is the dictionary one gets by storing the
    preferences of the registered plugins that have any, in the order of
    registration, each under the plugin's name. *)
Theorem USER_PREF_determined_by_PLUGINS (s : registry) :
  reachable s -> USER_PREF s = prefs_of (PLUGINS s).
Proof.
  induction 1 as [|A func a s _ IH].
  - reflexivity.
  - by apply register_keeps_prefs_of.
Qed.

Lemma USER_PREF_determined_by_PLUGINS_witness :
  let s := after (register (start_plugin
                              (TestPlugin (Some {[ "colour" := "str" ]}) "hello"))
                    tt)
             (after (register (start_plugin
                                 (TestPlugin (Some {[ "depth" := "int" ]}) "hello"))
                       tt) empty_registry) in
  USER_PREF s = prefs_of (PLUGINS s).
Proof.
  intros s. apply USER_PREF_determined_by_PLUGINS.
  apply reachable_register. apply reachable_register. apply reachable_empty.
Defined.

(** The entries of [prefs_of]: a value stored under a key is the
    preferences of a plugin of the list with that name. *)
Lemma prefs_of_lookup_Some (plugins : list object) (key : string)
    (pref : preferences) :
  prefs_of plugins !! key = Some pref ->
  exists p, p ∈ plugins /\ name p = key /\ user_pref p = Some pref.
Proof.
  induction plugins as [|p plugins IH] using rev_ind.
  - unfold prefs_of. simpl. by rewrite lookup_empty.
  - rewrite prefs_of_snoc. unfold store_pref.
    destruct (user_pref p) as [up|] eqn:Hup.
    + destruct (decide (name p = key)) as [<-|Hne].
      * rewrite lookup_insert_eq. intros [= <-].
        exists p. split; [|done].
        apply elem_of_app. right. apply list_elem_of_here.
      * rewrite lookup_insert_ne by done. intros H.
        destruct (IH H) as (p' & Hin & Hn & Hu).
        exists p'. split; [|done]. apply elem_of_app. by left.
    + intros H. destruct (IH H) as (p' & Hin & Hn & Hu).
      exists p'. split; [|done]. apply elem_of_app. by left.
Qed.

(** Every plugin of the list that has preferences has an entry. *)
Lemma prefs_of_lookup_is_Some (plugins : list object) (p : object) :
  p ∈ plugins -> is_Some (user_pref p) ->
  is_Some (prefs_of plugins !! name p).
Proof.
  intros Hin [up Hup].
  induction plugins as [|p' plugins IH] using rev_ind; [set_solver|].
  rewrite prefs_of_snoc. unfold store_pref.
  apply elem_of_app in Hin as [Hin|Hin].
  - specialize (IH Hin). destruct (user_pref p'); [|done].
    destruct (decide (name p' = name p)) as [->|Hne].
    + rewrite lookup_insert_eq. eauto.
    + by rewrite lookup_insert_ne.
  - apply list_elem_of_singleton in Hin as <-. rewrite Hup.
    rewrite lookup_insert_eq. eauto.
Qed.

(** In a reachable registry the value stored under a key of [USER_PREF]
    is the [user_pref] of a registered plugin of that name: no entry
    outlives or predates its plugin, and none is made up. *)
Theorem USER_PREF_values_come_from_PLUGINS (s : registry) (key : string)
    (pref : preferences) :
  reachable s -> USER_PREF s !! key = Some pref ->
  exists p, p ∈ PLUGINS s /\ name p = key /\ user_pref p = Some pref.
Proof.
  intros Hr. rewrite (reachable_prefs_of s Hr).
  apply prefs_of_lookup_Some.
Qed.

Lemma USER_PREF_values_come_from_PLUGINS_witness :
  let plugin := TestPlugin (Some {[ "depth" := "int" ]}) "hello" in
  let s := after (register (start_plugin plugin) tt) empty_registry in
  exists p, p ∈ PLUGINS s /\ name p = "hello" /\
            user_pref p = Some {[ "depth" := "int" ]}.
Proof.
  intros plugin s.
  apply (USER_PREF_values_come_from_PLUGINS s "hello" {[ "depth" := "int" ]}).
  - apply reachable_register. apply reachable_empty.
  - reflexivity.
Defined.

(** In a reachable registry every registered plugin that has preferences
    has an entry in [USER_PREF] under its name. *)
Theorem registered_preferences_have_entry (s : registry) (p : object) :
  reachable s -> p ∈ PLUGINS s -> is_Some (user_pref p) ->
  is_Some (USER_PREF s !! name p).
Proof.
  intros Hr. rewrite (reachable_prefs_of s Hr).
  apply prefs_of_lookup_is_Some.
Qed.

Lemma registered_preferences_have_entry_witness :
  let plugin := TestPlugin (Some {[ "depth" := "int" ]}) "hello" in
  let s := after (register (start_plugin (TestPlugin None "other")) tt)
             (after (register (start_plugin plugin) tt) empty_registry) in
  is_Some (USER_PREF s !! "hello").
Proof.
  intros plugin s.
  apply (registered_preferences_have_entry s plugin).
  - apply reachable_register. apply reachable_register. apply reachable_empty.
  - apply list_elem_of_here.
  - simpl. eauto.
Defined.

(** [USER_PREF] never has more entries than [PLUGINS] has plugins. *)
Theorem USER_PREF_no_larger_than_PLUGINS (s : registry) :
  reachable s -> (size (USER_PREF s) <= List.length (PLUGINS s))%nat.
Proof.
  induction 1 as [|A func a s _ IH]; [done|].
  destruct (outcome_cases (register func a) s) as [[p Hok]|[e Hr]].
  - apply register_Ok_inv in Hok as (_ & _ & ->).
    cbn [PLUGINS USER_PREF]. rewrite length_app. cbn [List.length].
    destruct (user_pref p); [|lia].
    rewrite map_size_insert. destruct (USER_PREF s !! name p); cbn; lia.
  - by rewrite (register_Raise_unchanged _ _ _ _ Hr).
Qed.

Lemma USER_PREF_no_larger_than_PLUGINS_witness :
  (size (USER_PREF
           (after (register (start_plugin
                               (TestPlugin (Some {[ "depth" := "int" ]}) "hello"))
                     tt) empty_registry))
   <= 1)%nat.
Proof.
  apply (USER_PREF_no_larger_than_PLUGINS
           (after (register (start_plugin
                               (TestPlugin (Some {[ "depth" := "int" ]}) "hello"))
                     tt) empty_registry)).
  apply reachable_register. apply reachable_empty.
Defined.

(** ** The default name of a plugin *)

Lemma string_app_cons (c : ascii) (s t : string) :
  (String c s ++ t)%string = String c (s ++ t)%string.
Proof. reflexivity. Qed.

Lemma string_app_empty_l (t : string) : ("" ++ t)%string = t.
Proof. reflexivity. Qed.

Lemma string_app_empty_r (s : string) : (s ++ "")%string = s.
Proof.
  induction s as [|c s IH]; [done|]. by rewrite string_app_cons, IH.
Qed.

Lemma string_app_snoc (s t : string) (c : ascii) :
  ((s ++ String c "") ++ t)%string = (s ++ String c t)%string.
Proof.
  induction s as [|a s IH]; [done|]. by rewrite !string_app_cons, IH.
Qed.

Lemma has_dot_app (s t : string) :
  has_dot (s ++ t)%string = has_dot s || has_dot t.
Proof.
  induction s as [|c s IH]; [done|].
  rewrite string_app_cons. simpl. by rewrite IH, orb_assoc.
Qed.

Lemma last_component_no_dot (acc s : string) :
  has_dot s = false -> last_component acc s = (acc ++ s)%string.
Proof.
  revert acc. induction s as [|c s IH]; intros acc; simpl.
  - intros _. by rewrite string_app_empty_r.
  - destruct (Ascii.eqb c "."); simpl; [done|].
    intros Hs. rewrite IH by done. apply string_app_snoc.
Qed.

Lemma last_component_has_no_dot (acc s : string) :
  has_dot acc = false -> has_dot (last_component acc s) = false.
Proof.
  revert acc. induction s as [|c s IH]; intros acc Hacc; simpl; [done|].
  destruct (Ascii.eqb c ".") eqn:Hc.
  - by apply IH.
  - apply IH. rewrite has_dot_app, Hacc. simpl. by rewrite Hc.
Qed.

Lemma last_component_after_dot (acc package module_ : string) :
  has_dot module_ = false ->
  last_component acc (package ++ "." ++ module_) = module_.
Proof.
  intros Hm. revert acc.
  induction package as [|c package IH]; intros acc.
  - rewrite string_app_empty_l, string_app_cons. simpl.
    by rewrite last_component_no_dot.
  - rewrite string_app_cons. simpl.
    destruct (Ascii.eqb c "."); apply IH.
Qed.

(** [set_name] gives the module name without its packages: for a dotted
    path it is what follows the last dot, and a name without dot is kept
    as it is. *)
Theorem set_name_last_component (package module_ : string) :
  has_dot module_ = false ->
  set_name (package ++ "." ++ module_) = module_ /\
  set_name module_ = module_.
Proof.
  intros Hm. unfold set_name. split.
  - by apply last_component_after_dot.
  - by rewrite last_component_no_dot.
Qed.

Lemma set_name_last_component_witness :
  set_name "pydat.plugins.passive" = "passive" /\
  set_name "passive" = "passive".
Proof.
  apply (set_name_last_component "pydat.plugins" "passive"). reflexivity.
Defined.

(** The name [set_name] gives never contains a dot, so applying it again
    changes nothing. *)
Theorem set_name_has_no_dot (module_ : string) :
  has_dot (set_name module_) = false /\
  set_name (set_name module_) = set_name module_.
Proof.
  assert (has_dot (set_name module_) = false) as H
    by (by apply last_component_has_no_dot).
  split; [done|]. unfold set_name at 1. by rewrite last_component_no_dot.
Qed.

(** ** Discovery *)

(** Registering a plugin that passes both checks. *)
Lemma plugin_module_validated {A} (func : A -> result object) (a : A)
    (s : registry) (p : object) :
  func a = Ok p -> validated p = true ->
  plugin_module func a s = (Ok tt, with_plugins s [p]).
Proof.
  intros Hf Hv. unfold plugin_module, register, bindM, lift, ret.
  rewrite Hf. unfold validated in Hv.
  destruct (isinstance_PluginBase p); [|done]. simpl.
  destruct (blueprint p) as [[bp|c]|e]; try done. simpl.
  unfold with_plugins, store_pref. simpl.
  by destruct (user_pref p).
Qed.

Lemma with_plugins_app (s : registry) (l k : list object) :
  with_plugins (with_plugins s l) k = with_plugins s (l ++ k)%list.
Proof.
  unfold with_plugins. simpl. by rewrite foldl_app, <- app_assoc.
Qed.

Lemma with_plugins_nil (s : registry) : with_plugins s [] = s.
Proof. destruct s. unfold with_plugins. simpl. by rewrite app_nil_r. Qed.

Lemma for_each_valid_modules (names : list string)
    (factory : string -> unit -> result object) (plugin : string -> object)
    (s : registry) :
  (forall n, n ∈ names ->
     factory n tt = Ok (plugin n) /\ validated (plugin n) = true) ->
  for_each names (fun n => plugin_module (factory n) tt) s
    = (Ok tt, with_plugins s (plugin <$> names)).
Proof.
  revert s. induction names as [|n names IH]; intros s Hall; simpl.
  - by rewrite with_plugins_nil.
  - destruct (Hall n) as [Hf Hv]; [apply list_elem_of_here|].
    unfold bindM at 1. rewrite (plugin_module_validated _ _ _ _ Hf Hv).
    rewrite IH.
    + by rewrite with_plugins_app.
    + intros n' Hn'. apply Hall. by apply list_elem_of_further.
Qed.

Lemma for_each_app {X} (xs ys : list X) (body : X -> M unit) (s : registry) :
  for_each (xs ++ ys)%list body s =
    match for_each xs body s with
    | (Ok _, s') => for_each ys body s'
    | (Raise e, s') => (Raise e, s')
    end.
Proof.
  revert s. induction xs as [|x xs IH]; intros s; simpl; [done|].
  unfold bindM. destruct (body x s) as [[u|e] s1]; [apply IH|done].
Qed.

(** Discovery keeps the order of the modules: when the registration of
    every module of the namespace returns its plugin, [get_plugins]
    returns the plugins that were registered before followed by one plugin
    per module, in the order [iter_modules] gave the modules, and the
    globals hold just that. *)
Theorem get_plugins_in_module_order (names : list string)
    (factory : string -> unit -> result object) (plugin : string -> object)
    (s : registry) :
  (forall n s0, n ∈ names ->
     outcome (register (factory n) tt) s0 = Ok (plugin n)) ->
  get_plugins names (fun n => plugin_module (factory n) tt) s
    = (Ok (PLUGINS s ++ (plugin <$> names))%list,
       with_plugins s (plugin <$> names)).
Proof.
  intros Hall. unfold get_plugins, bindM.
  rewrite (for_each_valid_modules names factory plugin); [done|].
  intros n Hn. specialize (Hall n s Hn).
  by apply register_Ok_inv in Hall as (? & ? & _).
Qed.

Lemma get_plugins_in_module_order_witness :
  get_plugins ["pydat.plugins.a"; "pydat.plugins.b"]
    (fun n => plugin_module (start_plugin (TestPlugin None (set_name n))) tt)
    empty_registry
  = (Ok [TestPlugin None "a"; TestPlugin None "b"],
     {| PLUGINS := [TestPlugin None "a"; TestPlugin None "b"];
        USER_PREF := ∅ |}).
Proof.
  apply (get_plugins_in_module_order ["pydat.plugins.a"; "pydat.plugins.b"]
           (fun n => start_plugin (TestPlugin None (set_name n)))
           (fun n => TestPlugin None (set_name n)) empty_registry).
  intros n s0 _. reflexivity.
Defined.

(** Discovery stops at the first module whose registration fails: when
    the factory of that module raises, or returns what fails one of the
    two checks, the exception leaves [get_plugins], the plugins of the
    modules before it stay registered, and the modules after it are not
    imported. *)
Theorem get_plugins_stops_at_failing_module (before after_ : list string)
    (bad : string) (factory : string -> unit -> result object)
    (plugin : string -> object) (s : registry) (e : exn) :
  (forall n s0, n ∈ before ->
     outcome (register (factory n) tt) s0 = Ok (plugin n)) ->
  (forall p, factory bad tt = Ok p -> validated p = false) ->
  outcome (register (factory bad) tt) (with_plugins s (plugin <$> before))
    = Raise e ->
  get_plugins (before ++ bad :: after_)%list
    (fun n => plugin_module (factory n) tt) s
    = (Raise e, with_plugins s (plugin <$> before)).
Proof.
  intros Hall _ Hbad. unfold get_plugins, bindM.
  rewrite for_each_app, (for_each_valid_modules before factory plugin).
  - simpl. unfold bindM, plugin_module, bindM.
    pose proof (register_Raise_unchanged _ _ _ _ Hbad) as Hs.
    unfold outcome in Hbad. unfold after in Hs.
    destruct (register (factory bad) tt (with_plugins s (plugin <$> before)))
      as [r s1]. simpl in Hbad, Hs. by subst.
  - intros n Hn. specialize (Hall n s Hn).
    by apply register_Ok_inv in Hall as (? & ? & _).
Qed.

Lemma get_plugins_stops_at_failing_module_witness :
  get_plugins
    (["pydat.plugins.a"] ++ "pydat.plugins.broken" :: ["pydat.plugins.z"])%list
    (fun n =>
       plugin_module
         (start_plugin (if String.eqb n "pydat.plugins.broken"
                        then NoRoutesPlugin "broken"
                        else TestPlugin None (set_name n))) tt)
    empty_registry
  = (Raise (TypeError "Cannot register plugin, must return a blueprint"),
     {| PLUGINS := [TestPlugin None "a"]; USER_PREF := ∅ |}).
Proof.
  apply (get_plugins_stops_at_failing_module
           ["pydat.plugins.a"] ["pydat.plugins.z"] "pydat.plugins.broken"
           (fun n => start_plugin
                       (if String.eqb n "pydat.plugins.broken"
                        then NoRoutesPlugin "broken"
                        else TestPlugin None (set_name n)))
           (fun n => TestPlugin None (set_name n)) empty_registry).
  - intros n s0 Hn. apply list_elem_of_singleton in Hn as ->. reflexivity.
  - intros p [= <-]. reflexivity.
  - reflexivity.
Defined.

(** ** The decorated factory, seen by its caller *)

(** When the decorated factory returns, what it returns is the factory's
    own plugin, and that plugin is a [PluginBase] instance whose
    [blueprint()] returns a [Blueprint]. *)
Theorem register_returns_validated {A} (func : A -> result object) (a : A)
    (s : registry) (plugin : object) :
  outcome (register func a) s = Ok plugin ->
  func a = Ok plugin /\ validated plugin = true.
Proof.
  intros H. by apply register_Ok_inv in H as (? & ? & _).
Qed.

Lemma register_returns_validated_witness :
  start_plugin (TestPlugin None "hello") tt = Ok (TestPlugin None "hello") /\
  validated (TestPlugin None "hello") = true.
Proof.
  apply (register_returns_validated (start_plugin (TestPlugin None "hello"))
           tt empty_registry (TestPlugin None "hello")).
  reflexivity.
Defined.
